(** * Prometheus-backed metrics client of the horizontal pod autoscaler

    A shallow embedding of [package metrics]: the two entry points
    [GetCPUUtilization] and [GetCustomMetric] of [PrometheusMetricsClient]
    and their helpers, followed by the properties of the retrieval and
    aggregation pipeline.

    Conventions of the embedding:
    - Go's [int64] is a [Z] with the wrap-around written out ([wrap64]);
      [int] is the 64-bit [int] of the amd64 target.
    - Go's [float64] is the primitive binary64 [float].
    - A Go function returning [(v, t, err)] returns the same tuple here, with
      [option] for pointers and for the [error] interface ([None] is [nil]).
    - A run either returns or panics ([outcome]); the queries sent to the
      backend are logged in the order in which they are issued ([Exec]).
    - Logging through [glog] has no effect on the results and is left out. *)

From Stdlib Require Import ZArith Floats Uint63 Lia.
From Stdlib Require Import Ascii.
From stdpp Require Import gmap strings list.

(** ** Go arithmetic *)

Module Go.

Local Open Scope Z_scope.

Definition MinInt64 : Z := - 2 ^ 63.
Definition MaxInt64 : Z := 2 ^ 63 - 1.

Definition in_int64 (z : Z) : Prop := MinInt64 <= z <= MaxInt64.

(** Two's complement wrap-around of a mathematical integer into [int64]. *)
Definition wrap64 (z : Z) : Z := (z + 2 ^ 63) mod 2 ^ 64 - 2 ^ 63.

Definition int64_add (a b : Z) : Z := wrap64 (a + b).
Definition int64_mul (a b : Z) : Z := wrap64 (a * b).

(** [a / b] on [int64] for a non-zero divisor: the quotient truncated
    toward zero; [MinInt64 / -1] wraps. A zero divisor panics, see
    [int64_div] below. *)
Definition int64_quo (a b : Z) : Z := wrap64 (Z.quot a b).

(** [int(x)] for [x : int64]: the identity on a 64-bit target. *)
Definition int_of_int64 (a : Z) : Z := a.

(** [float64(n)] for a length [n]. *)
Definition float64_of_int (n : Z) : float := PrimFloat.of_uint63 (Uint63.of_Z n).

(** The integer part of a finite float, [None] for infinities and NaN. *)
Definition float_trunc (f : float) : option Z :=
  match Prim2SF f with
  | S754_zero _ => Some 0
  | S754_finite s m e =>
      let mag := if 0 <=? e then Z.shiftl (Z.pos m) e else Z.shiftr (Z.pos m) (- e) in
      Some (if s then - mag else mag)
  | S754_infinity _ => None
  | S754_nan => None
  end.

(** [int64(f)] for [f : float64]: truncation toward zero. When the value
    is not representable the language leaves the result to the
    implementation; amd64's CVTTSD2SQ yields the "integer indefinite"
    value [MinInt64]. *)
Definition int64_of_float64 (f : float) : Z :=
  match float_trunc f with
  | Some z => if (MinInt64 <=? z) && (z <=? MaxInt64) then z else MinInt64
  | None => MinInt64
  end.

(** [strings.TrimSuffix s suffix]. *)
Fixpoint TrimSuffix (s suffix : string) : string :=
  if String.eqb s suffix then EmptyString
  else match s with
       | EmptyString => EmptyString
       | String c s' => String c (TrimSuffix s' suffix)
       end.

End Go.

(** ** Runs: panics and the log of backend queries *)

(** The panics of a run whose collaborators keep their contracts (see
    [PrometheusMetricsClient]). *)
Inductive panic : Type :=
| PanicInterfaceConversion   (* a failed unchecked type assertion [x.(T)] *)
| PanicDivideByZero.         (* runtime error: integer divide by zero *)

Inductive outcome (A : Type) : Type :=
| Returned (a : A)
| Panicked (p : panic).
Arguments Returned {A} a.
Arguments Panicked {A} p.

(** A run: the queries issued to the backend so far, and how the run ended. *)
Definition Exec (A : Type) : Type := list string * outcome A.

Definition issued {A} (m : Exec A) : list string := fst m.
Definition result {A} (m : Exec A) : outcome A := snd m.

#[global] Instance Exec_ret : MRet Exec := λ A a, ([], Returned a).
#[global] Instance Exec_bind : MBind Exec := λ A B f m,
  match snd m with
  | Returned a => (fst m ++ fst (f a), snd (f a))
  | Panicked p => (fst m, Panicked p)
  end.

Definition raise {A} (p : panic) : Exec A := ([], Panicked p).

(** Integer division as a statement of the program: panics on zero. *)
Definition int64_div (a b : Z) : Exec Z :=
  if (b =? 0)%Z then raise PanicDivideByZero else mret (Go.int64_quo a b).

(** ** Data model *)

(** [v1.PodPhase] with the phases of the API. *)
Inductive PodPhase : Type :=
| PodPending | PodRunning | PodSucceeded | PodFailed | PodUnknown.

#[global] Instance PodPhase_eq_dec : EqDecision PodPhase.
Proof. solve_decision. Defined.

(** [v1.ResourceCPU]. *)
Definition ResourceCPU : string := "cpu".

(** A container, reduced to [Resources.Requests]: resource name to the
    quantity's [MilliValue()]. *)
Record Container : Type := { Requests : gmap string Z }.

Record Pod : Type := {
  Name : string;
  Phase : PodPhase;        (* Status.Phase *)
  Containers : list Container  (* Spec.Containers *)
}.

(** [time.Time]: the zero value [time.Time{}], or the instant of a
    [model.Time] (milliseconds since the epoch) converted by [.Time()]. *)
Inductive time_Time : Type :=
| TimeZero
| TimeOfModel (ms : Z).

(** [*model.Sample], reduced to the fields that are read; the samples of a
    vector are taken to be non-nil, as the client decodes them. *)
Record Sample : Type := { Value : float; Timestamp : Z }.

(** [model.Value]: the shapes a query result can take. *)
Inductive model_Value : Type :=
| ValNil
| ValScalar (s : Sample)
| ValVector (v : list Sample)
| ValMatrix (m : list (list Sample))
| ValString (s : string) (ts : Z).

Definition is_vector (r : model_Value) : bool :=
  match r with ValVector _ => true | _ => false end.

(** Errors, one constructor per [fmt.Errorf] site, and [ErrExternal] for the
    errors of the collaborators. *)
Inductive error : Type :=
| ErrExternal (msg : string)
| ErrPodList (cause : error)
| ErrNoRunningPods
| ErrNoCpuRequest
| ErrQuery (metric podListReg : string) (cause : error)
| ErrCpuMetricsMissing (podListReg : string)
| ErrMetricMissing (metric podListReg : string)
| ErrCpuConsumptionAndRequest (cause : error).

(** [err.Error()]. *)
Fixpoint Error (e : error) : string :=
  match e with
  | ErrExternal msg => msg
  | ErrPodList cause => "failed to get pod list: " +:+ Error cause
  | ErrNoRunningPods => "no running pods"
  | ErrNoCpuRequest => "some pods do not have request for cpu"
  | ErrQuery metric podListReg cause =>
      "failed to get metrics " +:+ metric +:+ " for pods: " +:+ podListReg
        +:+ " due to: " +:+ Error cause
  | ErrCpuMetricsMissing podListReg => "cpu metrics missing for pods " +:+ podListReg
  | ErrMetricMissing metric podListReg =>
      "metric " +:+ metric +:+ " missing for pods: " +:+ podListReg
  | ErrCpuConsumptionAndRequest cause =>
      "failed to get CPU consumption and request: " +:+ Error cause
  end.

Definition DefaultPrometheusAddress : string := "http://prometheus-0.kube-system.svc:9090".
Definition DefaultCPUUtilizationMetric : string := "container_cpu_usage_seconds_total".

(** [PrometheusMetricsClient] with its two collaborators, as one run of an
    entry point meets them, and the order in which the [range] of that run
    visits the keys of its map. Go draws this order afresh at every [range]:
    a value of this type stands for one run, a property of a run holds for
    every order, and two runs are compared as two clients, each with an
    order of its own.

    The collaborators are taken at their contracts: a listing that returns
    no error returns a list, not a nil [*PodList], and the samples of a
    vector are not nil. A run against a collaborator that breaks these
    would end in the panic of a nil dereference, at the [range] over
    [podList.Items] or at [metrics[0].Value]; this is outside the runs
    modelled here, and the properties on panics are read under these two
    assumptions. *)
Record PrometheusMetricsClient : Type := {
  (* h.client.Core().Pods(namespace).List(api.ListOptions{LabelSelector: selector}) *)
  client_List : string → string → list Pod * option error;
  (* h.queryAPI.Query(ctx, query, time.Now()) *)
  queryAPI_Query : string → model_Value * option error;
  map_range : gset string → list string
}.

(** Issue a query: it is logged, and the backend's answer returned. *)
Definition Query (h : PrometheusMetricsClient) (query : string)
  : Exec (model_Value * option error) :=
  ([query], Returned (queryAPI_Query h query)).

(** [result.(model.Vector)], the unchecked type assertion. *)
Definition assertVector (r : model_Value) : Exec (list Sample) :=
  match r with
  | ValVector v => mret v
  | _ => raise PanicInterfaceConversion
  end.

(** ** The program *)

(** The loop body of [getCpuUtilizationForPods] and [getCustomMetricForPods]
    that grows the pattern. *)
Definition appendName (podListReg podName : string) : string :=
  podListReg +:+ podName +:+ "|".

(** [podListReg] as both helpers build it from the names in visiting order. *)
Definition podListReg (podNames : list string) : string :=
  let podListReg := foldl appendName "(" podNames in
  (* trim the last "|": the trimmed string is not assigned *)
  let _ := Go.TrimSuffix podListReg "|" in
  podListReg +:+ ").*".

Definition cpuQuery (namespace podListReg : string) : string :=
  "sum(rate({__name__='" +:+ DefaultCPUUtilizationMetric +:+ "',namespace='"
    +:+ namespace +:+ "',pod_name=~'" +:+ podListReg +:+ "'}[30m]))".

Definition customQuery (customMetricName namespace podListReg : string) : string :=
  "sum({__name__='" +:+ customMetricName +:+ "',kubernetes_namespace='"
    +:+ namespace +:+ "',kubernetes_pod_name=~'" +:+ podListReg +:+ "'})".

Definition getCpuUtilizationForPods (h : PrometheusMetricsClient)
    (namespace selector : string) (podNames : gset string)
  : Exec (Z * time_Time * option error) :=
  let podListReg := podListReg (map_range h podNames) in
  let query := cpuQuery namespace podListReg in
  '(result, err) ← Query h query;
  match err with
  | Some err =>
      mret (0%Z, TimeZero, Some (ErrQuery DefaultCPUUtilizationMetric podListReg err))
  | None =>
      metrics ← assertVector result;
      match metrics with
      | [] => mret (0%Z, TimeZero, Some (ErrCpuMetricsMissing podListReg))
      | m0 :: _ =>
          let sum := PrimFloat.mul (Value m0) 1000%float in
          mret (Go.int64_of_float64
                  (PrimFloat.div sum (Go.float64_of_int (Z.of_nat (size podNames)))),
                TimeOfModel (Timestamp m0), None)
      end
  end.

(** The inner loop of [GetCpuConsumptionAndRequestInMillis], over the
    containers of a running pod. *)
Definition addContainer (st : Z * bool) (container : Container) : Z * bool :=
  let '(requestSum, missing) := st in
  match Requests container !! ResourceCPU with
  | Some containerRequest => (Go.int64_add requestSum containerRequest, missing)
  | None => (requestSum, true)
  end.

(** The outer loop, over the pods of the list. *)
Definition addPod (st : gset string * Z * bool) (pod : Pod) : gset string * Z * bool :=
  let '(podNames, requestSum, missing) := st in
  if decide (Phase pod ≠ PodRunning) then
    (* Count only running pods. *)
    st
  else
    let '(requestSum, missing) := foldl addContainer (requestSum, missing) (Containers pod) in
    ({[Name pod]} ∪ podNames, requestSum, missing).

Definition GetCpuConsumptionAndRequestInMillis (h : PrometheusMetricsClient)
    (namespace selector : string)
  : Exec (Z * Z * time_Time * option error) :=
  let '(podList, err) := client_List h namespace selector in
  match err with
  | Some err => mret (0%Z, 0%Z, TimeZero, Some (ErrPodList err))
  | None =>
      let '(podNames, requestSum, missing) := foldl addPod (∅, 0%Z, false) podList in
      if bool_decide (size podNames = 0) && bool_decide (0 < length podList) then
        mret (0%Z, 0%Z, TimeZero, Some ErrNoRunningPods)
      else if missing || (requestSum =? 0)%Z then
        mret (0%Z, 0%Z, TimeZero, Some ErrNoCpuRequest)
      else
        requestAvg ← int64_div requestSum (Z.of_nat (size podNames));
        (* Consumption is already averaged and in millis. *)
        '(consumption, timestamp, err) ← getCpuUtilizationForPods h namespace selector podNames;
        match err with
        | Some err => mret (0%Z, 0%Z, TimeZero, Some err)
        | None => mret (consumption, requestAvg, timestamp, None)
        end
  end.

Definition GetCPUUtilization (h : PrometheusMetricsClient) (namespace selector : string)
  : Exec (option Z * time_Time * option error) :=
  '(avgConsumption, avgRequest, timestamp, err) ←
      GetCpuConsumptionAndRequestInMillis h namespace selector;
  match err with
  | Some err => mret (None, TimeZero, Some (ErrCpuConsumptionAndRequest err))
  | None =>
      q ← int64_div (Go.int64_mul avgConsumption 100) avgRequest;
      let utilization := Go.int_of_int64 q in
      mret (Some utilization, timestamp, None)
  end.

Definition getCustomMetricForPods (h : PrometheusMetricsClient)
    (customMetricName namespace : string) (podNames : list string)
  : Exec (float * time_Time * option error) :=
  let podListReg := podListReg podNames in
  let query := customQuery customMetricName namespace podListReg in
  '(result, err) ← Query h query;
  match err with
  | Some err => mret (0%float, TimeZero, Some (ErrQuery customMetricName podListReg err))
  | None =>
      metrics ← assertVector result;
      match metrics with
      | [] => mret (0%float, TimeZero, Some (ErrMetricMissing customMetricName podListReg))
      | m0 :: _ =>
          mret (PrimFloat.div (Value m0) (Go.float64_of_int (Z.of_nat (length podNames))),
                TimeOfModel (Timestamp m0), None)
      end
  end.

(** The loop of [GetCustomMetric]. *)
Definition appendNotPending (podNames : list string) (pod : Pod) : list string :=
  if decide (Phase pod = PodPending) then
    (* Skip pending pods. *)
    podNames
  else podNames ++ [Name pod].

Definition GetCustomMetric (h : PrometheusMetricsClient)
    (customMetricName namespace selector : string)
  : Exec (option float * time_Time * option error) :=
  let '(podList, err) := client_List h namespace selector in
  match err with
  | Some err => mret (None, TimeZero, Some (ErrPodList err))
  | None =>
      let podNames := foldl appendNotPending [] podList in
      if bool_decide (length podNames = 0) && bool_decide (0 < length podList) then
        mret (None, TimeZero, Some ErrNoRunningPods)
      else
        '(value, timestamp, err) ← getCustomMetricForPods h customMetricName namespace podNames;
        match err with
        | Some err => mret (None, TimeZero, Some err)
        | None => mret (Some value, timestamp, None)
        end
  end.

(** ** Test fixtures *)

Module Fixture.

Definition container (milli : Z) : Container := {| Requests := {[ ResourceCPU := milli ]} |}.
Definition bare : Container := {| Requests := ∅ |}.
Definition pod (name : string) (phase : PodPhase) (cs : list Container) : Pod :=
  {| Name := name; Phase := phase; Containers := cs |}.

(** A client whose listing and backend answer the same whatever is asked,
    and whose maps are visited in the order of [elements]. *)
Definition client (pods : list Pod) (answer : model_Value) : PrometheusMetricsClient :=
  {| client_List := λ _ _, (pods, None);
     queryAPI_Query := λ _, (answer, None);
     map_range := elements |}.

Definition sample (v : float) (ts : Z) : Sample := {| Value := v; Timestamp := ts |}.

End Fixture.

(** ** Vocabulary of the properties

    The pod sets, sums and counts that the properties speak of, defined on
    the pod list directly; the lemmas below relate the loops of the program
    to them. *)

Definition runningPods (pods : list Pod) : list Pod :=
  filter (λ pod, Phase pod = PodRunning) pods.

Definition notPendingPods (pods : list Pod) : list Pod :=
  filter (λ pod, Phase pod ≠ PodPending) pods.

Definition cpuRequest (c : Container) : option Z := Requests c !! ResourceCPU.

(** Every container of every running pod has an explicit CPU request. *)
Definition allRequested (pods : list Pod) : Prop :=
  Forall (λ pod, Forall (λ c, is_Some (cpuRequest c)) (Containers pod)) (runningPods pods).

Definition Zsum (l : list Z) : Z := foldr Z.add 0%Z l.

(** The explicit CPU requests of the running pods, in milli-units. *)
Definition runningRequests (pods : list Pod) : list Z :=
  pod ← runningPods pods; omap cpuRequest (Containers pod).

(** Their sum as a mathematical integer, and as the program's [int64]. *)
Definition requestTotal (pods : list Pod) : Z := Zsum (runningRequests pods).
Definition requestSum (pods : list Pod) : Z := Go.wrap64 (requestTotal pods).

(** The set of names of the running pods. *)
Definition eligibleNames (pods : list Pod) : gset string :=
  list_to_set (Name <$> runningPods pods).

(** The average request and consumption of [GetCpuConsumptionAndRequestInMillis]
    over [count] pods. *)
Definition avgRequestMilli (sum : Z) (count : nat) : Z :=
  Go.int64_quo sum (Z.of_nat count).

Definition avgConsumptionMilli (v : float) (count : nat) : Z :=
  Go.int64_of_float64
    (PrimFloat.div (PrimFloat.mul v 1000%float) (Go.float64_of_int (Z.of_nat count))).

(** The averages over the running pods of a list, for a first sample [v]. *)
Definition podAvgRequest (pods : list Pod) : Z :=
  avgRequestMilli (requestSum pods) (size (eligibleNames pods)).

Definition podAvgConsumption (pods : list Pod) (v : float) : Z :=
  avgConsumptionMilli v (size (eligibleNames pods)).

(** The failures of the pipeline: of the listing, of the phase filter, of
    the requests, of the query, and of an empty vector. *)
Definition failurePath (e : error) : bool :=
  match e with
  | ErrPodList _ | ErrNoRunningPods | ErrNoCpuRequest
  | ErrQuery _ _ _ | ErrCpuMetricsMissing _ | ErrMetricMissing _ _ => true
  | ErrExternal _ | ErrCpuConsumptionAndRequest _ => false
  end.

(** The pattern that the comments of the helpers announce: the names joined
    by the separator, without a trailing one. *)
Definition joinedPattern (podNames : list string) : string :=
  "(" +:+ String.concat "|" podNames +:+ ").*".

(** The characters that the loop appends: every name and its separator. *)
Definition namesLength (podNames : list string) : nat :=
  foldr (λ podName n, String.length podName + 1 + n) 0 podNames.

(** ** Outcome tables

    What the entry points make of the backend's answer, used to state the
    runs below. *)

Definition wrapped (e : error) : option Z * time_Time * option error :=
  (None, TimeZero, Some (ErrCpuConsumptionAndRequest e)).

(** What [GetCPUUtilization] makes of the backend's answer to its query. *)
Definition cpuAnswer (reg : string) (count : nat) (sum : Z)
    (answer : model_Value * option error)
  : outcome (option Z * time_Time * option error) :=
  match answer.2, answer.1 with
  | Some err, _ => Returned (wrapped (ErrQuery DefaultCPUUtilizationMetric reg err))
  | None, ValVector [] => Returned (wrapped (ErrCpuMetricsMissing reg))
  | None, ValVector (m0 :: _) =>
      if (avgRequestMilli sum count =? 0)%Z then Panicked PanicDivideByZero
      else Returned
             (Some (Go.int64_quo (Go.int64_mul (avgConsumptionMilli (Value m0) count) 100)
                      (avgRequestMilli sum count)),
              TimeOfModel (Timestamp m0), None)
  | None, _ => Panicked PanicInterfaceConversion
  end.

(** What [GetCustomMetric] makes of the backend's answer to its query. *)
Definition customAnswer (metric reg : string) (count : nat)
    (answer : model_Value * option error)
  : outcome (option float * time_Time * option error) :=
  match answer.2, answer.1 with
  | Some err, _ => Returned (None, TimeZero, Some (ErrQuery metric reg err))
  | None, ValVector [] => Returned (None, TimeZero, Some (ErrMetricMissing metric reg))
  | None, ValVector (m0 :: _) =>
      Returned (Some (PrimFloat.div (Value m0) (Go.float64_of_int (Z.of_nat count))),
                TimeOfModel (Timestamp m0), None)
  | None, _ => Panicked PanicInterfaceConversion
  end.

(** What [GetCpuConsumptionAndRequestInMillis] makes of the backend's answer
    to its query. *)
Definition millisAnswer (reg : string) (count : nat) (sum : Z)
    (answer : model_Value * option error)
  : outcome (Z * Z * time_Time * option error) :=
  match answer.2, answer.1 with
  | Some err, _ =>
      Returned (0%Z, 0%Z, TimeZero, Some (ErrQuery DefaultCPUUtilizationMetric reg err))
  | None, ValVector [] => Returned (0%Z, 0%Z, TimeZero, Some (ErrCpuMetricsMissing reg))
  | None, ValVector (m0 :: _) =>
      Returned (avgConsumptionMilli (Value m0) count, avgRequestMilli sum count,
                TimeOfModel (Timestamp m0), None)
  | None, _ => Panicked PanicInterfaceConversion
  end.

(** The client [h] with a backend that answers [answer] to every query. *)
Definition answering (h : PrometheusMetricsClient) (answer : model_Value * option error)
  : PrometheusMetricsClient :=
  {| client_List := client_List h;
     queryAPI_Query := λ _, answer;
     map_range := map_range h |}.

(** ** Fixtures of the scenarios *)

Module Scenario.
Import Fixture.

Definition ns : string := "ns1".
Definition sel : string := "app=web".
Definition metric : string := "qps".

(** Two running pods requesting 100m and 300m. *)
Definition twoRunning : list Pod :=
  [pod "a" PodRunning [container 100]; pod "b" PodRunning [container 300]].

(** Pods that are all pending. *)
Definition allPending : list Pod :=
  [pod "a" PodPending [container 100]; pod "b" PodPending [container 300]].

(** Three pods that are not pending, and a pending one. *)
Definition threeEligible : list Pod :=
  [pod "a" PodRunning [container 100]; pod "b" PodFailed [bare];
   pod "c" PodPending [container 100]; pod "d" PodSucceeded [container 300]].

(** One running pod requesting 100m. *)
Definition single : list Pod := [pod "a" PodRunning [container 100]].

(** Two running pods requesting 1m and 0m. *)
Definition smallRequests : list Pod :=
  [pod "a" PodRunning [container 1]; pod "b" PodRunning [container 0]].

(** Two running pods of the same name, as a listing over all namespaces
    can return them. *)
Definition sameName : list Pod :=
  [pod "web-0" PodRunning [container 1]; pod "web-0" PodRunning [container 2]].

(** Two running pods, the second without a CPU request. *)
Definition oneBare : list Pod :=
  [pod "a" PodRunning [container 100]; pod "b" PodRunning [bare]].

(** 0.4 as a [float64]. *)
Definition v04 : float := 0x1.999999999999ap-2%float.

(** 0.0019 as a [float64]. *)
Definition v0019 : float := 0x1.f212d77318fc5p-10%float.

(** One running pod requesting 10m. *)
Definition tenMilli : list Pod := [pod "a" PodRunning [container 10]].

(** Clients over these lists, with the answer of the backend. *)
Definition hTenMilli : PrometheusMetricsClient :=
  client tenMilli (ValVector [sample v0019 17]).
Definition hTwo : PrometheusMetricsClient := client twoRunning (ValVector [sample v04 17]).
Definition hSingle : PrometheusMetricsClient := client single (ValVector [sample v04 17]).
Definition hSmall : PrometheusMetricsClient :=
  client smallRequests (ValVector [sample v04 17]).
Definition hSameName : PrometheusMetricsClient := client sameName (ValVector [sample 0.5 17]).
Definition hOneBare : PrometheusMetricsClient := client oneBare (ValVector [sample v04 17]).
Definition hPending : PrometheusMetricsClient := client allPending (ValVector [sample 1 17]).
Definition hThree : PrometheusMetricsClient := client threeEligible (ValVector [sample 30 17]).
Definition hEmptyVector : PrometheusMetricsClient := client twoRunning (ValVector []).
Definition hNoPods : PrometheusMetricsClient := client [] (ValVector []).
Definition hNoPodsSample : PrometheusMetricsClient := client [] (ValVector [sample 30 17]).
Definition hScalar : PrometheusMetricsClient := client twoRunning (ValScalar (sample 1 17)).
Definition hMatrix : PrometheusMetricsClient := client twoRunning (ValMatrix []).

(** Two running pods with an explicit request of 0m. *)
Definition zeroRequests : list Pod :=
  [pod "a" PodRunning [container 0]; pod "b" PodRunning [container 0]].
Definition hZero : PrometheusMetricsClient := client zeroRequests (ValVector [sample v04 17]).

(** A client whose listing fails, and one whose backend fails. *)
Definition hListFails : PrometheusMetricsClient :=
  {| client_List := λ _ _, (twoRunning, Some (ErrExternal "timeout"));
     queryAPI_Query := λ _, (ValVector [sample 1 17], None);
     map_range := elements |}.
Definition hQueryFails : PrometheusMetricsClient :=
  {| client_List := λ _ _, (twoRunning, None);
     queryAPI_Query := λ _, (ValScalar (sample 1 17), Some (ErrExternal "bad gateway"));
     map_range := elements |}.

(** The two running pods listed in the other order, by a client whose run
    visits its maps in the other order too. *)
Definition hTwoReversed : PrometheusMetricsClient :=
  {| client_List := λ _ _, (reverse twoRunning, None);
     queryAPI_Query := λ _, (ValVector [sample v04 17; sample 1 18], None);
     map_range := λ podNames, reverse (elements podNames) |}.

End Scenario.

(** The utilization as the property of the specification words it: the
    averages are taken over the number of running pods, and the percentage
    is the floor of the quotient. *)
Definition claimedUtilization (pods : list Pod) (v : float) : Z :=
  let count := length (runningPods pods) in
  let avgRequestMilli := Z.div (requestTotal pods) (Z.of_nat count) in
  let avgConsumptionMilli := avgConsumptionMilli v count in
  Z.div (avgConsumptionMilli * 100) avgRequestMilli.

(** ** The script that builds the image

    [script/build-image.sh], run under [errexit], [nounset] and [pipefail].
    A run is the sequence of the commands it executes and of the texts it
    echoes, with its exit status. What the script reads from outside is a
    field of [World]: its arguments, the variable [PUSH_TO_REGISTRY], the
    output of the command substitutions, and the exit status of every
    command it runs. An [echo] is taken to succeed. The command
    substitutions of a condition ([uname], [which]) and of the arguments of
    a command ([pwd]) do not end the script whatever their status; the one
    of the assignment to [ROOT] does, being the status of the assignment. *)

Module BuildImage.

(** The double quote, for the command lines that contain one. *)
Definition DQ : string := String "034"%char EmptyString.

(** The commands that the script runs as statements of their own. *)
Inductive command : Type :=
| AssignRoot                      (* ROOT=$(dirname "${BASH_SOURCE}")/.. *)
| EvalDockerMachine               (* eval "$(docker-machine env kube-dev)" *)
| EvalBoot2docker                 (* eval "$(boot2docker shellinit)" *)
| CdRoot (ROOT : string)          (* cd ${ROOT} *)
| DockerRun (pwd : string)        (* docker run --rm -v `pwd`:... *)
| DockerBuild (IMAGE_TAG : string)
| CdBack                          (* cd - > /dev/null *)
| DockerPush (IMAGE_TAG : string).

Definition imageName : string := "index.caicloud.io/caicloud/prometheus-hpa-controller:".

(** The text of a command after the expansion of its parameters and
    command substitutions, before it is split into words. *)
Definition commandLine (c : command) : string :=
  match c with
  | AssignRoot => "ROOT=$(dirname " +:+ DQ +:+ "${BASH_SOURCE}" +:+ DQ +:+ ")/.."
  | EvalDockerMachine => "eval " +:+ DQ +:+ "$(docker-machine env kube-dev)" +:+ DQ
  | EvalBoot2docker => "eval " +:+ DQ +:+ "$(boot2docker shellinit)" +:+ DQ
  | CdRoot ROOT => "cd " +:+ ROOT
  | DockerRun pwd =>
      "docker run --rm -v " +:+ pwd +:+ ":/go/src/k8s.io/contrib/prometheus-hpa "
        +:+ "index.caicloud.io/caicloud/golang:1.7 sh -c " +:+ DQ
        +:+ "cd /go/src/k8s.io/contrib/prometheus-hpa && go build -race ." +:+ DQ
  | DockerBuild IMAGE_TAG => "docker build -t " +:+ imageName +:+ IMAGE_TAG +:+ " ."
  | CdBack => "cd - > /dev/null"
  | DockerPush IMAGE_TAG => "docker push " +:+ imageName +:+ IMAGE_TAG
  end.

(** What the script echoes. *)
Inductive message : Type :=
| Usage (PUSH_TO_REGISTRY : string)   (* the function [usage] *)
| StartBuilding
| StartPushing                        (* an empty line, then the announcement *)
| Success (IMAGE_TAG : string)
| ReleaseReminder.

(** The [echo] statements of a message: whether [-e] is given, and the
    argument after the expansion of its parameters. *)
Definition echoes (m : message) : list (bool * string) :=
  match m with
  | Usage PUSH_TO_REGISTRY =>
      [(true, "Usage:");
       (true, "  ./build-image.sh [tag]");
       (true, "");
       (true, "Parameter:");
       (true, " tag\tDocker image tag, treated as prometheus-hpa release version. If provided,");
       (true, "    \tthe tag must be the form of vA.B.C, where A, B, C are digits, e.g.");
       (true, "    \tv1.0.1. If not provided, it will build images with tag 'latest'");
       (true, "");
       (true, "Environment variable:");
       (true, " PUSH_TO_REGISTRY     \tPush images to caicloud registry or not, options: Y or N. Default value: "
                +:+ PUSH_TO_REGISTRY)]
  | StartBuilding => [(false, "+++++ Start building prometheus-hpa")]
  | StartPushing => [(false, ""); (false, "+++++ Start pushing prometheus-hpa")]
  | Success IMAGE_TAG =>
      [(false, "Successfully built docker image " +:+ imageName +:+ IMAGE_TAG)]
  | ReleaseReminder =>
      [(true, "Finish building release ; if this is a formal release, please remember");
       (true, "to create a release tag at Github at: https://github.com/caicloud/contrib/prometheus-hpa/releases")]
  end.

Inductive event : Type :=
| Echo (m : message)
| Run (c : command).

Record World : Type := {
  args : list string;                     (* the positional parameters *)
  PUSH_TO_REGISTRY : option string;       (* the variable of the environment, if set *)
  dirname : string;                       (* $(dirname "${BASH_SOURCE}") *)
  uname : string;                         (* `uname` *)
  which_docker_machine : string;          (* $(which docker-machine) *)
  which_boot2docker : string;             (* $(which boot2docker) *)
  pwd : string;                           (* `pwd`, in ${ROOT} *)
  status : command → nat                  (* the exit status of a command *)
}.

(** A statement goes on to the next one, or the script exits. *)
Inductive flow (A : Type) : Type :=
| Next (a : A)
| Exit (status : nat).
Arguments Next {A} a.
Arguments Exit {A} status.

Definition Sh (A : Type) : Type := list event * flow A.

#[global] Instance Sh_ret : MRet Sh := λ A a, ([], Next a).
#[global] Instance Sh_bind : MBind Sh := λ A B f m,
  match snd m with
  | Next a => (fst m ++ fst (f a), snd (f a))
  | Exit n => (fst m, Exit n)
  end.

Definition echo (m : message) : Sh unit := ([Echo m], Next ()).
Definition exit {A} (n : nat) : Sh A := ([], Exit n).

(** A command as a statement: under [errexit] a status other than 0 ends
    the script with that status. *)
Definition run (w : World) (c : command) : Sh unit :=
  ([Run c], if status w c =? 0 then Next () else Exit (status w c)).

(** [[ "$1" == "help" || "$1" == "--help" || "$1" == "-h" ]] *)
Definition isHelp (a : string) : bool :=
  String.eqb a "help" || String.eqb a "--help" || String.eqb a "-h".

Definition isDigit (c : ascii) : bool :=
  let n := nat_of_ascii c in (48 <=? n) && (n <=? 57).

Fixpoint skipDigits (s : string) : string :=
  match s with
  | String c r => if isDigit c then skipDigits r else s
  | EmptyString => EmptyString
  end.

(** [[0-9]+] at the head of [s]: what follows it. *)
Definition digits (s : string) : option string :=
  match s with
  | String c r => if isDigit c then Some (skipDigits r) else None
  | EmptyString => None
  end.

(** A literal character at the head of [s]: what follows it. *)
Definition char (c : ascii) (s : string) : option string :=
  match s with
  | String c' r => if Ascii.eqb c c' then Some r else None
  | EmptyString => None
  end.

(** One piece of the pattern after another. *)
Definition next (p q : string → option string) (s : string) : option string :=
  match p s with
  | Some r => q r
  | None => None
  end.

(** [$1 =~ ^v[0-9]+\.[0-9]+\.[0-9]+$] *)
Definition isRelease (a : string) : bool :=
  match next (char "v") (next digits (next (char ".") (next digits
          (next (char ".") digits)))) a with
  | Some EmptyString => true
  | _ => false
  end.

(** [${PUSH_TO_REGISTRY:-"N"}]: the default stands in for a variable that is
    unset or empty. *)
Definition pushToRegistry (w : World) : string :=
  match PUSH_TO_REGISTRY w with
  | Some v => if String.eqb v "" then "N" else v
  | None => "N"
  end.

(** The tag of the image, or the end of the script on a request for help. *)
Definition imageTag (w : World) : Sh string :=
  match args w with
  | [a1] =>
      if isHelp a1 then
        echo (Usage (pushToRegistry w));;
        exit 0
      else mret a1
  | _ => mret "latest"
  end.

(** Setup docker on Mac. *)
Definition setupDocker (w : World) : Sh unit :=
  if String.eqb (uname w) "Darwin" then
    if negb (String.eqb (which_docker_machine w) "") then run w EvalDockerMachine
    else if negb (String.eqb (which_boot2docker w) "") then run w EvalBoot2docker
    else mret ()
  else mret ().

Definition script (w : World) : Sh unit :=
  run w AssignRoot;;
  let ROOT := dirname w +:+ "/.." in
  let PUSH_TO_REGISTRY := pushToRegistry w in
  IMAGE_TAG ← imageTag w;
  setupDocker w;;
  echo StartBuilding;;
  run w (CdRoot ROOT);;
  (* Build prometheus-hpa binary. *)
  run w (DockerRun (pwd w));;
  (* Build prometheus-hpa container. *)
  run w (DockerBuild IMAGE_TAG);;
  run w CdBack;;
  (* Decide if we need to push images to caicloud registry. *)
  (if String.eqb PUSH_TO_REGISTRY "Y" then
     echo StartPushing;;
     run w (DockerPush IMAGE_TAG)
   else mret ());;
  echo (Success IMAGE_TAG);;
  (* A reminder for creating Github release. *)
  match args w with
  | [a1] => if isRelease a1 then echo ReleaseReminder else mret ()
  | _ => mret ()
  end.

Definition events (m : Sh unit) : list event := fst m.

(** The exit status of the script: that of [exit] or of the failed command,
    and 0 at the end of the file. *)
Definition exitStatus (m : Sh unit) : nat :=
  match snd m with
  | Next _ => 0
  | Exit n => n
  end.

(** The words of the property on release tags: a non-empty string of
    decimal digits. *)
Fixpoint allDigits (s : string) : bool :=
  match s with
  | String c r => isDigit c && allDigits r
  | EmptyString => true
  end.

Definition number (s : string) : Prop := s ≠ EmptyString ∧ allDigits s = true.

(** The tag that the script settles on, if it goes on to build. *)
Definition tagOf (w : World) : option string :=
  match args w with
  | [a1] => if isHelp a1 then None else Some a1
  | _ => Some "latest"
  end.

(** The statements of a build with the tag [IMAGE_TAG], in the order of the
    script, were none to fail. *)
Definition plan (w : World) (IMAGE_TAG : string) : list event :=
  [Run AssignRoot]
  ++ (if String.eqb (uname w) "Darwin" then
        if negb (String.eqb (which_docker_machine w) "") then [Run EvalDockerMachine]
        else if negb (String.eqb (which_boot2docker w) "") then [Run EvalBoot2docker]
        else []
      else [])
  ++ [Echo StartBuilding; Run (CdRoot (dirname w +:+ "/.."));
      Run (DockerRun (pwd w)); Run (DockerBuild IMAGE_TAG); Run CdBack]
  ++ (if String.eqb (pushToRegistry w) "Y"
      then [Echo StartPushing; Run (DockerPush IMAGE_TAG)] else [])
  ++ [Echo (Success IMAGE_TAG)]
  ++ match args w with
     | [a1] => if isRelease a1 then [Echo ReleaseReminder] else []
     | _ => []
     end.

(** The statements of a list that are reached under [errexit]: all up to
    and with the first command that fails. *)
Fixpoint reached (w : World) (l : list event) : list event :=
  match l with
  | [] => []
  | Echo m :: l => Echo m :: reached w l
  | Run c :: l => Run c :: (if status w c =? 0 then reached w l else [])
  end.

(** The status of the first command of a list that fails, 0 when none does. *)
Fixpoint failure (w : World) (l : list event) : nat :=
  match l with
  | [] => 0
  | Echo m :: l => failure w l
  | Run c :: l => if status w c =? 0 then failure w l else status w c
  end.

(** A list of statements run under [errexit]. *)
Definition runs (w : World) (l : list event) : Sh unit :=
  (reached w l, if failure w l =? 0 then Next () else Exit (failure w l)).

(** Every command of a list succeeds. *)
Definition succeed (w : World) (l : list event) : Prop :=
  Forall (λ e, match e with Run c => status w c = 0 | Echo _ => True end) l.

(** A world in which every command succeeds. *)
Definition fine (args : list string) (push : option string) : World :=
  {| args := args; PUSH_TO_REGISTRY := push; dirname := "./script"; uname := "Linux";
     which_docker_machine := ""; which_boot2docker := ""; pwd := "/src";
     status := λ _, 0 |}.

(** A world in which [docker build] fails with the status [n] and every
    other command succeeds. *)
Definition buildFails (args : list string) (push : option string) (n : nat) : World :=
  {| args := args; PUSH_TO_REGISTRY := push; dirname := "./script"; uname := "Linux";
     which_docker_machine := ""; which_boot2docker := ""; pwd := "/src";
     status := λ c, match c with DockerBuild _ => n | _ => 0 end |}.

End BuildImage.

(** Membership in a list that is written out: one case for each element. *)
Ltac members H :=
  repeat first
    [ apply elem_of_nil in H; destruct H
    | apply elem_of_cons in H as [H|H]; [try discriminate H|] ].

(** A decidable property of a concrete input holds by evaluation. *)
Ltac by_evaluation :=
  match goal with
  | |- ?P => apply (bool_decide_unpack P); vm_compute; exact I
  end.

(** ** Arithmetic lemmas *)

Section Arithmetic.

Local Open Scope Z_scope.

Lemma wrap64_range z : Go.in_int64 (Go.wrap64 z).
Proof.
  unfold Go.in_int64, Go.wrap64, Go.MinInt64, Go.MaxInt64.
  pose proof (Z.mod_pos_bound (z + 2 ^ 63) (2 ^ 64)). lia.
Qed.

Lemma wrap64_small z : Go.in_int64 z → Go.wrap64 z = z.
Proof.
  unfold Go.in_int64, Go.wrap64, Go.MinInt64, Go.MaxInt64. intros Hz.
  rewrite Z.mod_small; lia.
Qed.

Lemma wrap64_idem z : Go.wrap64 (Go.wrap64 z) = Go.wrap64 z.
Proof. apply wrap64_small, wrap64_range. Qed.

Lemma wrap64_add_l a b : Go.wrap64 (Go.wrap64 a + b) = Go.wrap64 (a + b).
Proof.
  unfold Go.wrap64.
  replace ((a + 2 ^ 63) mod 2 ^ 64 - 2 ^ 63 + b + 2 ^ 63)
    with ((a + 2 ^ 63) mod 2 ^ 64 + b) by lia.
  rewrite Zplus_mod_idemp_l. f_equal. f_equal. lia.
Qed.

(** Without overflow and on non-negative operands the program's quotient
    is the floor of the exact quotient. *)
Lemma int64_quo_floor a b :
  0 <= a <= Go.MaxInt64 → 0 < b → Go.int64_quo a b = a / b.
Proof.
  intros Ha Hb. unfold Go.int64_quo.
  rewrite Z.quot_div_nonneg by lia.
  apply wrap64_small. unfold Go.in_int64, Go.MinInt64, Go.MaxInt64 in *.
  pose proof (Z.div_pos a b). pose proof (Z.div_le_upper_bound a b a).
  nia.
Qed.

(** The conversion of a [float64] truncates toward zero, and yields
    [MinInt64] on what [int64] cannot represent. *)
Example int64_of_float64_samples :
  Go.int64_of_float64 1.5 = 1
  ∧ Go.int64_of_float64 (-1.5) = -1
  ∧ Go.int64_of_float64 0.25 = 0
  ∧ Go.int64_of_float64 200 = 200
  ∧ Go.int64_of_float64 0x1p+63 = Go.MinInt64
  ∧ Go.int64_of_float64 infinity = Go.MinInt64
  ∧ Go.int64_of_float64 nan = Go.MinInt64.
Proof. repeat split. Qed.

Example int64_quo_samples :
  Go.int64_quo 7 2 = 3 ∧ Go.int64_quo (-7) 2 = -3 ∧ Go.int64_quo 7 (-2) = -3
  ∧ Go.int64_quo Go.MinInt64 (-1) = Go.MinInt64.
Proof. repeat split. Qed.

Example TrimSuffix_samples :
  Go.TrimSuffix "(a|b|" "|" = "(a|b"
  ∧ Go.TrimSuffix "(a|b" "|" = "(a|b"
  ∧ Go.TrimSuffix "|a|" "|" = "|a"
  ∧ Go.TrimSuffix "a" "" = "a".
Proof. repeat split. Qed.

Lemma Zsum_app l1 l2 : Zsum (l1 ++ l2) = Zsum l1 + Zsum l2.
Proof. unfold Zsum. induction l1 as [|x l1 IH]; simpl; [done | rewrite IH; lia]. Qed.

End Arithmetic.

(** ** The loops *)

Section Loops.

Local Open Scope Z_scope.

Lemma foldl_addContainer cs s missing :
  Go.wrap64 s = s →
  foldl addContainer (s, missing) cs =
    (Go.wrap64 (s + Zsum (omap cpuRequest cs)),
     missing || bool_decide (¬ Forall (λ c, is_Some (cpuRequest c)) cs)).
Proof.
  revert s missing. induction cs as [|c cs IH]; intros s missing Hs.
  - simpl. rewrite Z.add_0_r, Hs, orb_false_r. done.
  - simpl. unfold cpuRequest at 1 3.
    destruct (Requests c !! ResourceCPU) as [r|] eqn:Hr.
    + rewrite IH by apply wrap64_idem.
      unfold Go.int64_add. rewrite wrap64_add_l. simpl.
      f_equal; [by rewrite Z.add_assoc|]. f_equal. apply bool_decide_ext.
      rewrite Forall_cons. unfold cpuRequest at 2. rewrite Hr.
      split; [intros H [_ ?]; auto | intros H ?; apply H; split; eauto].
    + rewrite IH by done. f_equal.
      rewrite (bool_decide_true (¬ Forall _ (c :: cs))); [by rewrite orb_true_r|].
      rewrite Forall_cons. unfold cpuRequest at 1. rewrite Hr.
      intros [[? ?] _]. done.
Qed.

Lemma filter_nil_Forall {A} (P : A → Prop) `{!∀ x, Decision (P x)} (l : list A) :
  filter P l = [] ↔ ∀ x, x ∈ l → ¬ P x.
Proof.
  split.
  - intros Hnil x Hin HP. by apply (filter_nil_not_elem_of P l x).
  - intros Hall. destruct (filter P l) as [|y l'] eqn:Hf; [done|].
    assert (y ∈ filter P l) as Hy by (rewrite Hf; left).
    apply list_elem_of_filter in Hy as [HP Hin]. by destruct (Hall y Hin).
Qed.

Lemma filter_Exists_ne {A} (P : A → Prop) `{!∀ x, Decision (P x)} (l : list A) :
  Exists P l → filter P l ≠ [].
Proof.
  rewrite Exists_exists. intros (x & Hin & HP) Hnil.
  by apply (filter_nil_not_elem_of P l x).
Qed.

Lemma runningPods_idem pods : runningPods (runningPods pods) = runningPods pods.
Proof.
  unfold runningPods. rewrite list_filter_filter.
  apply list_filter_iff. tauto.
Qed.

Lemma notPendingPods_idem pods : notPendingPods (notPendingPods pods) = notPendingPods pods.
Proof.
  unfold notPendingPods. rewrite list_filter_filter.
  apply list_filter_iff. tauto.
Qed.

Lemma runningPods_cons_running pod pods :
  Phase pod = PodRunning → runningPods (pod :: pods) = pod :: runningPods pods.
Proof. intros H. unfold runningPods. by rewrite filter_cons_True. Qed.

Lemma runningPods_cons_other pod pods :
  Phase pod ≠ PodRunning → runningPods (pod :: pods) = runningPods pods.
Proof. intros H. unfold runningPods. by rewrite filter_cons_False. Qed.

Lemma foldl_addPod pods names s missing :
  Go.wrap64 s = s →
  foldl addPod (names, s, missing) pods =
    (eligibleNames pods ∪ names,
     Go.wrap64 (s + requestTotal pods),
     missing || bool_decide (¬ allRequested pods)).
Proof.
  revert names s missing. induction pods as [|pod pods IH]; intros names s missing Hs.
  - simpl. unfold eligibleNames, requestTotal, runningRequests, allRequested. simpl.
    rewrite Z.add_0_r, Hs, union_empty_l_L.
    by rewrite orb_false_r.
  - simpl. destruct (decide (Phase pod ≠ PodRunning)) as [Hne|Heq].
    + rewrite IH by done.
      unfold eligibleNames, requestTotal, runningRequests, allRequested.
      by rewrite runningPods_cons_other.
    + apply dec_stable in Heq.
      rewrite foldl_addContainer by done.
      rewrite IH by apply wrap64_idem.
      unfold eligibleNames, requestTotal, runningRequests, allRequested.
      rewrite runningPods_cons_running by done. simpl.
      rewrite wrap64_add_l, Zsum_app, Z.add_assoc.
      f_equal; [f_equal; first [done | by rewrite (assoc_L (∪)), (comm_L (∪) _ {[Name pod]})]|].
      rewrite <- orb_assoc. f_equal.
      repeat case_bool_decide; simpl; try done;
        exfalso; rewrite Forall_cons in *; tauto.
Qed.

(** The outer loop of [GetCpuConsumptionAndRequestInMillis] computes the
    name set, the [int64] sum and the missing flag of the running pods. *)
Lemma aggregate_spec pods :
  foldl addPod (∅, 0, false) pods =
    (eligibleNames pods, requestSum pods, bool_decide (¬ allRequested pods)).
Proof.
  rewrite foldl_addPod by done. by rewrite union_empty_r_L.
Qed.

Lemma foldl_appendNotPending pods acc :
  foldl appendNotPending acc pods = acc ++ (Name <$> notPendingPods pods).
Proof.
  revert acc. induction pods as [|pod pods IH]; intros acc; simpl.
  - by rewrite app_nil_r.
  - rewrite IH. unfold appendNotPending, notPendingPods.
    destruct (decide (Phase pod = PodPending)) as [Heq|Hne].
    + by rewrite filter_cons_False by (intros H; done).
    + rewrite filter_cons_True by done. by rewrite <- app_assoc.
Qed.

(** The loop of [GetCustomMetric] collects the names of the pods that are
    not pending, in the order of the list. *)
Lemma collect_spec pods :
  foldl appendNotPending [] pods = Name <$> notPendingPods pods.
Proof. apply foldl_appendNotPending. Qed.

Lemma eligibleNames_size_0 pods :
  size (eligibleNames pods) = 0%nat ↔ runningPods pods = [].
Proof.
  unfold eligibleNames. rewrite size_empty_iff. split.
  - destruct (runningPods pods) as [|pod l]; [done|].
    intros H. exfalso. apply (not_elem_of_empty (C:=gset string) (Name pod)).
    rewrite <- (leibniz_equiv _ _ H). set_solver.
  - intros ->. done.
Qed.

(** With pairwise distinct names the set has one name per running pod. *)
Lemma eligibleNames_size_NoDup pods :
  NoDup (Name <$> runningPods pods) →
  size (eligibleNames pods) = length (runningPods pods).
Proof.
  intros H. unfold eligibleNames.
  rewrite size_list_to_set by done. by rewrite length_fmap.
Qed.

Lemma elem_of_eligibleNames name pods :
  name ∈ eligibleNames pods ↔
  ∃ pod, pod ∈ pods ∧ Phase pod = PodRunning ∧ Name pod = name.
Proof.
  unfold eligibleNames, runningPods.
  rewrite elem_of_list_to_set, list_elem_of_fmap. split.
  - intros (pod & -> & Hin). apply list_elem_of_filter in Hin as [? ?]. eauto.
  - intros (pod & Hin & Hph & <-). exists pod. split; [done|].
    by apply list_elem_of_filter.
Qed.

(** The program's sum is the exact one as long as that fits [int64]. *)
Lemma requestSum_exact pods :
  Go.in_int64 (requestTotal pods) → requestSum pods = requestTotal pods.
Proof. apply wrap64_small. Qed.

(** A non-zero sum needs a running pod. *)
Lemma requestSum_nonzero_running pods :
  requestSum pods ≠ 0 → runningPods pods ≠ [].
Proof.
  intros H Hnil. apply H.
  unfold requestSum, requestTotal, runningRequests. by rewrite Hnil.
Qed.

End Loops.

(** ** Runs of the entry points

    Each entry point is a linear pipeline; the lemmas of this section give
    the whole run (queries issued and outcome) at each of its exits. *)

Section Runs.

Variable h : PrometheusMetricsClient.
Variables namespace selector : string.

Lemma GetCPUUtilization_list_error pods err :
  client_List h namespace selector = (pods, Some err) →
  GetCPUUtilization h namespace selector = ([], Returned (wrapped (ErrPodList err))).
Proof.
  intros Hl. unfold GetCPUUtilization, GetCpuConsumptionAndRequestInMillis.
  by rewrite Hl.
Qed.

Lemma GetCPUUtilization_no_running pods :
  client_List h namespace selector = (pods, None) →
  runningPods pods = [] → pods ≠ [] →
  GetCPUUtilization h namespace selector = ([], Returned (wrapped ErrNoRunningPods)).
Proof.
  intros Hl Hrun Hne. unfold GetCPUUtilization, GetCpuConsumptionAndRequestInMillis.
  rewrite Hl, aggregate_spec.
  rewrite (bool_decide_true (size _ = 0)) by by apply eligibleNames_size_0.
  rewrite (bool_decide_true (0 < _)); [done|].
  destruct pods; [done | simpl; lia].
Qed.

Lemma GetCPUUtilization_no_request pods :
  client_List h namespace selector = (pods, None) →
  pods = [] ∨ runningPods pods ≠ [] →
  ¬ allRequested pods ∨ requestSum pods = 0%Z →
  GetCPUUtilization h namespace selector = ([], Returned (wrapped ErrNoCpuRequest)).
Proof.
  intros Hl Hpods Hreq. unfold GetCPUUtilization, GetCpuConsumptionAndRequestInMillis.
  rewrite Hl, aggregate_spec.
  assert (bool_decide (size (eligibleNames pods) = 0) && bool_decide (0 < length pods)
          = false) as ->.
  { destruct Hpods as [-> | Hrun]; [done|].
    rewrite bool_decide_false; [done|]. by rewrite eligibleNames_size_0. }
  assert (bool_decide (¬ allRequested pods) || (requestSum pods =? 0)%Z = true) as ->.
  { destruct Hreq as [Hmiss | Hzero].
    - by rewrite bool_decide_true.
    - rewrite Hzero. by rewrite orb_true_r. }
  done.
Qed.

Lemma GetCPUUtilization_query pods :
  client_List h namespace selector = (pods, None) →
  allRequested pods → requestSum pods ≠ 0%Z →
  let names := eligibleNames pods in
  let reg := podListReg (map_range h names) in
  GetCPUUtilization h namespace selector =
    ([cpuQuery namespace reg],
     cpuAnswer reg (size names) (requestSum pods)
       (queryAPI_Query h (cpuQuery namespace reg))).
Proof.
  intros Hl Hall Hsum names reg.
  assert (size names ≠ 0) as Hsize.
  { unfold names. rewrite eligibleNames_size_0. by apply requestSum_nonzero_running. }
  unfold GetCPUUtilization, GetCpuConsumptionAndRequestInMillis.
  rewrite Hl, aggregate_spec. fold names.
  rewrite (bool_decide_false (size _ = 0)) by done.
  rewrite (bool_decide_false (¬ _)) by (intros H; by apply H).
  apply Z.eqb_neq in Hsum as ->. simpl.
  unfold int64_div. rewrite (proj2 (Z.eqb_neq _ 0)) by lia.
  unfold getCpuUtilizationForPods, Query. fold reg.
  unfold cpuAnswer, int64_div, avgRequestMilli, avgConsumptionMilli, wrapped.
  destruct (queryAPI_Query h (cpuQuery namespace reg)) as [r [e|]]; [done|].
  destruct r as [|?|[|m0 v]|?|? ?]; try done.
  cbn. by destruct (Go.int64_quo (requestSum pods) (Z.of_nat (size names)) =? 0)%Z.
Qed.

Variable customMetricName : string.

Lemma GetCustomMetric_list_error pods err :
  client_List h namespace selector = (pods, Some err) →
  GetCustomMetric h customMetricName namespace selector =
    ([], Returned (None, TimeZero, Some (ErrPodList err))).
Proof. intros Hl. unfold GetCustomMetric. by rewrite Hl. Qed.

Lemma GetCustomMetric_all_pending pods :
  client_List h namespace selector = (pods, None) →
  notPendingPods pods = [] → pods ≠ [] →
  GetCustomMetric h customMetricName namespace selector =
    ([], Returned (None, TimeZero, Some ErrNoRunningPods)).
Proof.
  intros Hl Hnp Hne. unfold GetCustomMetric.
  rewrite Hl, collect_spec, Hnp. simpl.
  rewrite (bool_decide_true (0 < _)); [done|].
  destruct pods; [done | simpl; lia].
Qed.

Lemma GetCustomMetric_query pods :
  client_List h namespace selector = (pods, None) →
  pods = [] ∨ notPendingPods pods ≠ [] →
  let reg := podListReg (Name <$> notPendingPods pods) in
  GetCustomMetric h customMetricName namespace selector =
    ([customQuery customMetricName namespace reg],
     customAnswer customMetricName reg (length (notPendingPods pods))
       (queryAPI_Query h (customQuery customMetricName namespace reg))).
Proof.
  intros Hl Hpods reg. unfold GetCustomMetric.
  rewrite Hl, collect_spec.
  assert (bool_decide (length (Name <$> notPendingPods pods) = 0)
          && bool_decide (0 < length pods) = false) as ->.
  { destruct Hpods as [-> | Hnp]; [done|].
    rewrite bool_decide_false; [done|].
    rewrite length_fmap. by destruct (notPendingPods pods). }
  unfold getCustomMetricForPods, Query. fold reg. rewrite length_fmap.
  unfold customAnswer.
  destruct (queryAPI_Query h (customQuery customMetricName namespace reg)) as [r [e|]];
    [done|].
  by destruct r as [|?|[|m0 v]|?|? ?].
Qed.

(** Every run of [GetCPUUtilization] stops before the query with an error,
    or issues its one query and goes by [cpuAnswer]. *)
Lemma GetCPUUtilization_cases :
  (∃ e, GetCPUUtilization h namespace selector = ([], Returned (wrapped e))
        ∧ failurePath e = true)
  ∨ (∃ pods,
       client_List h namespace selector = (pods, None)
       ∧ allRequested pods ∧ requestSum pods ≠ 0%Z
       ∧ GetCPUUtilization h namespace selector =
           ([cpuQuery namespace (podListReg (map_range h (eligibleNames pods)))],
            cpuAnswer (podListReg (map_range h (eligibleNames pods)))
              (size (eligibleNames pods)) (requestSum pods)
              (queryAPI_Query h
                 (cpuQuery namespace (podListReg (map_range h (eligibleNames pods))))))).
Proof.
  destruct (client_List h namespace selector) as [pods [err|]] eqn:Hl.
  { left. exists (ErrPodList err). split; [|done]. by eapply GetCPUUtilization_list_error. }
  destruct (decide (allRequested pods ∧ requestSum pods ≠ 0%Z)) as [[Hall Hsum]|Hno].
  { right. exists pods. repeat split; try done. by apply GetCPUUtilization_query. }
  left. destruct pods as [|pod pods].
  { exists ErrNoCpuRequest. split; [|done]. eapply GetCPUUtilization_no_request; eauto. }
  destruct (runningPods (pod :: pods)) as [|r rs] eqn:Hrun.
  { exists ErrNoRunningPods. split; [|done]. by eapply GetCPUUtilization_no_running. }
  exists ErrNoCpuRequest. split; [|done]. eapply GetCPUUtilization_no_request; eauto.
  - right. by rewrite Hrun.
  - destruct (decide (allRequested (pod :: pods))); [|by left].
    right. destruct (decide (requestSum (pod :: pods) = 0%Z)); [done|]. tauto.
Qed.

(** Likewise for [GetCustomMetric] and [customAnswer]. *)
Lemma GetCustomMetric_cases :
  (∃ e, GetCustomMetric h customMetricName namespace selector =
          ([], Returned (None, TimeZero, Some e))
        ∧ failurePath e = true)
  ∨ (∃ pods,
       client_List h namespace selector = (pods, None)
       ∧ GetCustomMetric h customMetricName namespace selector =
           ([customQuery customMetricName namespace
               (podListReg (Name <$> notPendingPods pods))],
            customAnswer customMetricName (podListReg (Name <$> notPendingPods pods))
              (length (notPendingPods pods))
              (queryAPI_Query h
                 (customQuery customMetricName namespace
                    (podListReg (Name <$> notPendingPods pods)))))).
Proof.
  destruct (client_List h namespace selector) as [pods [err|]] eqn:Hl.
  { left. exists (ErrPodList err). split; [|done]. by eapply GetCustomMetric_list_error. }
  destruct pods as [|pod pods].
  { right. exists []. split; [done|]. apply GetCustomMetric_query; auto. }
  destruct (notPendingPods (pod :: pods)) as [|r rs] eqn:Hnp.
  { left. exists ErrNoRunningPods. split; [|done]. by eapply GetCustomMetric_all_pending. }
  right. exists (pod :: pods). split; [done|].
  apply GetCustomMetric_query; [done|]. right. by rewrite Hnp.
Qed.

End Runs.

Section Filtered.

Lemma eligibleNames_running pods : eligibleNames (runningPods pods) = eligibleNames pods.
Proof. unfold eligibleNames. by rewrite runningPods_idem. Qed.

Lemma requestSum_running pods : requestSum (runningPods pods) = requestSum pods.
Proof. unfold requestSum, requestTotal, runningRequests. by rewrite runningPods_idem. Qed.

Lemma allRequested_running pods : allRequested (runningPods pods) ↔ allRequested pods.
Proof. unfold allRequested. by rewrite runningPods_idem. Qed.

Lemma aggregate_running pods :
  foldl addPod (∅, 0%Z, false) pods = foldl addPod (∅, 0%Z, false) (runningPods pods).
Proof.
  rewrite !aggregate_spec, eligibleNames_running, requestSum_running.
  f_equal. apply bool_decide_ext. by rewrite allRequested_running.
Qed.

Lemma collect_notPending pods :
  foldl appendNotPending [] pods = foldl appendNotPending [] (notPendingPods pods).
Proof. by rewrite !collect_spec, notPendingPods_idem. Qed.

End Filtered.

Import Scenario.

(** The messages of the errors that the properties name. *)
Example Error_messages :
  Error (ErrCpuConsumptionAndRequest ErrNoRunningPods) =
    "failed to get CPU consumption and request: no running pods"
  ∧ Error (ErrCpuConsumptionAndRequest ErrNoCpuRequest) =
      "failed to get CPU consumption and request: some pods do not have request for cpu"
  ∧ Error (ErrCpuConsumptionAndRequest (ErrCpuMetricsMissing "(a|).*")) =
      "failed to get CPU consumption and request: cpu metrics missing for pods (a|).*"
  ∧ Error (ErrMetricMissing "qps" "(a|).*") = "metric qps missing for pods: (a|).*"
  ∧ Error (ErrPodList (ErrExternal "timeout")) = "failed to get pod list: timeout".
Proof. repeat split. Qed.

(** ** Properties of the entry points *)

(** C6: when the pod list is not empty and the phase filter of the entry
    point leaves no pod (no pod is Running for [GetCPUUtilization], every pod
    is Pending for [GetCustomMetric]), the entry point returns the "no
    running pods" error, wrapped by [GetCPUUtilization], and has issued no
    query to the backend. *)
Theorem no_eligible_pods_fails_before_query
    (h : PrometheusMetricsClient) (customMetricName namespace selector : string)
    (pods : list Pod) :
  client_List h namespace selector = (pods, None) →
  pods ≠ [] →
  (Forall (λ pod, Phase pod ≠ PodRunning) pods →
     issued (GetCPUUtilization h namespace selector) = []
     ∧ result (GetCPUUtilization h namespace selector) =
         Returned (None, TimeZero, Some (ErrCpuConsumptionAndRequest ErrNoRunningPods)))
  ∧ (Forall (λ pod, Phase pod = PodPending) pods →
     issued (GetCustomMetric h customMetricName namespace selector) = []
     ∧ result (GetCustomMetric h customMetricName namespace selector) =
         Returned (None, TimeZero, Some ErrNoRunningPods)).
Proof.
  intros Hl Hne. split; intros Hall.
  - rewrite (GetCPUUtilization_no_running h namespace selector pods);
      [done | done | | done].
    apply filter_nil_Forall. intros pod Hin.
    rewrite Forall_forall in Hall. eauto.
  - rewrite (GetCustomMetric_all_pending h namespace selector customMetricName pods);
      [done | done | | done].
    apply filter_nil_Forall. intros pod Hin Hph.
    rewrite Forall_forall in Hall. eauto.
Qed.

Lemma no_eligible_pods_fails_before_query_witness :
  (issued (GetCPUUtilization hPending ns sel) = []
   ∧ result (GetCPUUtilization hPending ns sel) =
       Returned (None, TimeZero, Some (ErrCpuConsumptionAndRequest ErrNoRunningPods)))
  ∧ (issued (GetCustomMetric hPending metric ns sel) = []
     ∧ result (GetCustomMetric hPending metric ns sel) =
         Returned (None, TimeZero, Some ErrNoRunningPods)).
Proof.
  destruct (no_eligible_pods_fails_before_query hPending metric ns sel
              allPending eq_refl ltac:(discriminate)) as [Hcpu Hcustom].
  split; [apply Hcpu | apply Hcustom]; repeat constructor; discriminate.
Defined.

(** C7: when the backend answers the query of an entry point with a vector
    of length zero, the entry point returns a nil value, the zero time and
    the "metrics missing" error of its helper ([GetCPUUtilization] wraps
    it). *)
Theorem empty_vector_fails
    (h : PrometheusMetricsClient) (customMetricName namespace selector : string) :
  (∀ q, issued (GetCPUUtilization h namespace selector) = [q] →
        queryAPI_Query h q = (ValVector [], None) →
        ∃ reg, result (GetCPUUtilization h namespace selector) =
                 Returned (None, TimeZero,
                           Some (ErrCpuConsumptionAndRequest (ErrCpuMetricsMissing reg))))
  ∧ (∀ q, issued (GetCustomMetric h customMetricName namespace selector) = [q] →
          queryAPI_Query h q = (ValVector [], None) →
          ∃ reg, result (GetCustomMetric h customMetricName namespace selector) =
                   Returned (None, TimeZero, Some (ErrMetricMissing customMetricName reg))).
Proof.
  split; intros q Hq Hanswer.
  - destruct (GetCPUUtilization_cases h namespace selector)
      as [(e & Hrun & _) | (pods & _ & _ & _ & Hrun)];
      rewrite Hrun in Hq |- *; [done|].
    injection Hq as <-. rewrite Hanswer. by eexists.
  - destruct (GetCustomMetric_cases h namespace selector customMetricName)
      as [(e & Hrun & _) | (pods & _ & Hrun)];
      rewrite Hrun in Hq |- *; [done|].
    injection Hq as <-. rewrite Hanswer. by eexists.
Qed.

Lemma empty_vector_fails_witness :
  (∃ reg, result (GetCPUUtilization hEmptyVector ns sel) =
            Returned (None, TimeZero,
                      Some (ErrCpuConsumptionAndRequest (ErrCpuMetricsMissing reg))))
  ∧ (∃ reg, result (GetCustomMetric hEmptyVector metric ns sel) =
              Returned (None, TimeZero, Some (ErrMetricMissing metric reg))).
Proof.
  destruct (empty_vector_fails hEmptyVector metric ns sel) as [Hcpu Hcustom].
  split.
  - apply (Hcpu (cpuQuery ns "(a|b|).*")); reflexivity.
  - apply (Hcustom (customQuery metric ns "(a|b|).*")); reflexivity.
Defined.

(** C10: whenever an entry point returns an error, the value it returns is
    nil and the time is the zero time; the error is one of the failures of
    the pipeline (of the listing, the phase filter, the requests, the query,
    or an empty vector), wrapped once more by [GetCPUUtilization]. *)
Theorem failures_return_zero_time
    (h : PrometheusMetricsClient) (customMetricName namespace selector : string) :
  (∀ v t e, result (GetCPUUtilization h namespace selector) = Returned (v, t, Some e) →
            v = None ∧ t = TimeZero
            ∧ ∃ cause, e = ErrCpuConsumptionAndRequest cause ∧ failurePath cause = true)
  ∧ (∀ v t e, result (GetCustomMetric h customMetricName namespace selector) =
                Returned (v, t, Some e) →
              v = None ∧ t = TimeZero ∧ failurePath e = true).
Proof.
  split; intros v t e Hres.
  - destruct (GetCPUUtilization_cases h namespace selector)
      as [(e' & Hrun & Hpath) | (pods & _ & _ & _ & Hrun)]; rewrite Hrun in Hres.
    + injection Hres as <- <- <-. eauto.
    + unfold result, cpuAnswer, wrapped in Hres. simpl in Hres.
      destruct (queryAPI_Query h _) as [r [err|]]; simpl in Hres.
      { injection Hres as <- <- <-. eauto. }
      destruct r as [|?|[|m0 ms]|?|? ?]; try discriminate.
      { injection Hres as <- <- <-. eauto. }
      destruct (avgRequestMilli _ _ =? 0)%Z; discriminate.
  - destruct (GetCustomMetric_cases h namespace selector customMetricName)
      as [(e' & Hrun & Hpath) | (pods & _ & Hrun)]; rewrite Hrun in Hres.
    + injection Hres as <- <- <-. eauto.
    + unfold result, customAnswer in Hres. simpl in Hres.
      destruct (queryAPI_Query h _) as [r [err|]]; simpl in Hres.
      { injection Hres as <- <- <-. eauto. }
      destruct r as [|?|[|m0 ms]|?|? ?]; try discriminate.
      injection Hres as <- <- <-. eauto.
Qed.

Lemma failures_return_zero_time_witness :
  (∃ v t e,
     result (GetCPUUtilization hEmptyVector ns sel) =
       Returned (v, t, Some e)
     ∧ v = None ∧ t = TimeZero)
  ∧ (∃ v t e,
       result (GetCustomMetric hEmptyVector metric ns sel) =
         Returned (v, t, Some e)
       ∧ v = None ∧ t = TimeZero).
Proof.
  destruct (failures_return_zero_time hEmptyVector metric
              ns sel) as [Hcpu Hcustom].
  split; do 3 eexists.
  - split; [reflexivity|]. destruct (Hcpu _ _ _ eq_refl) as (Hv & Ht & _). by split.
  - split; [reflexivity|]. destruct (Hcustom _ _ _ eq_refl) as (Hv & Ht & _). by split.
Defined.

(** C8: when at least one listed pod is not Pending and the backend answers
    the query with a non-empty vector, [GetCustomMetric] returns the value
    of the first sample divided, as a [float64], by the number of pods that
    are not Pending, with the time of that sample; three such pods and a
    sample of 30.0 give 10.0. *)
Theorem GetCustomMetric_average
    (h : PrometheusMetricsClient) (customMetricName namespace selector : string)
    (pods : list Pod) (s : Sample) (rest : list Sample) :
  client_List h namespace selector = (pods, None) →
  Exists (λ pod, Phase pod ≠ PodPending) pods →
  queryAPI_Query h
    (customQuery customMetricName namespace (podListReg (Name <$> notPendingPods pods)))
    = (ValVector (s :: rest), None) →
  result (GetCustomMetric h customMetricName namespace selector) =
    Returned (Some (PrimFloat.div (Value s)
                      (Go.float64_of_int (Z.of_nat (length (notPendingPods pods))))),
              TimeOfModel (Timestamp s), None)
  ∧ (length (notPendingPods pods) = 3 → Value s = 30%float →
     result (GetCustomMetric h customMetricName namespace selector) =
       Returned (Some 10%float, TimeOfModel (Timestamp s), None)).
Proof.
  intros Hl Hex Hanswer.
  assert (result (GetCustomMetric h customMetricName namespace selector) =
            Returned (Some (PrimFloat.div (Value s)
                              (Go.float64_of_int (Z.of_nat (length (notPendingPods pods))))),
                      TimeOfModel (Timestamp s), None)) as Hres.
  { rewrite (GetCustomMetric_query h namespace selector customMetricName pods Hl).
    - unfold result. simpl. by rewrite Hanswer.
    - right. by apply filter_Exists_ne. }
  split; [done|]. intros Hcount Hvalue.
  rewrite Hres, Hcount, Hvalue. reflexivity.
Qed.

Lemma GetCustomMetric_average_witness :
  result (GetCustomMetric hThree metric ns sel) =
    Returned (Some 10%float, TimeOfModel 17, None).
Proof.
  destruct (GetCustomMetric_average hThree metric ns sel
              threeEligible (Fixture.sample 30 17) []) as [_ Hten].
  - reflexivity.
  - apply Exists_cons_hd. discriminate.
  - reflexivity.
  - apply Hten; reflexivity.
Defined.

(** *** CPU utilization *)

Lemma avgRequestMilli_zero_sum count : avgRequestMilli 0 count = 0%Z.
Proof. unfold avgRequestMilli, Go.int64_quo. by destruct (Z.of_nat count). Qed.

(** Where the average request is not zero: when every container of every
    running pod has a CPU request, the average request (the [int64] sum of
    the requests divided by the number of distinct names of running pods) is
    not zero and the backend answers the query with a non-empty vector,
    [GetCPUUtilization] returns the
    [int64] quotient, truncated toward zero, of 100 times the average
    consumption by the average request, with the time of the first sample;
    the average consumption is the first sample's value times 1000 divided by
    that number of names and converted to [int64]. The quotient is the floor
    of the exact one when the operands are not negative and the product does
    not overflow. Two running pods with distinct names requesting 100m and
    300m and a first sample of 0.4 give 100. *)
Theorem GetCPUUtilization_percentage
    (h : PrometheusMetricsClient) (namespace selector : string)
    (pods : list Pod) (s : Sample) (rest : list Sample) :
  client_List h namespace selector = (pods, None) →
  allRequested pods →
  podAvgRequest pods ≠ 0%Z →
  queryAPI_Query h (cpuQuery namespace (podListReg (map_range h (eligibleNames pods))))
    = (ValVector (s :: rest), None) →
  result (GetCPUUtilization h namespace selector) =
    Returned (Some (Go.int64_quo (Go.int64_mul (podAvgConsumption pods (Value s)) 100)
                      (podAvgRequest pods)),
              TimeOfModel (Timestamp s), None)
  ∧ ((0 ≤ podAvgConsumption pods (Value s) * 100 ≤ Go.MaxInt64)%Z →
     (0 < podAvgRequest pods)%Z →
     Go.int64_quo (Go.int64_mul (podAvgConsumption pods (Value s)) 100) (podAvgRequest pods) =
       Z.div (podAvgConsumption pods (Value s) * 100) (podAvgRequest pods))
  ∧ (∀ a b, a ≠ b →
       pods = [Fixture.pod a PodRunning [Fixture.container 100];
               Fixture.pod b PodRunning [Fixture.container 300]] →
       Value s = v04 →
       result (GetCPUUtilization h namespace selector) =
         Returned (Some 100%Z, TimeOfModel (Timestamp s), None)).
Proof.
  intros Hl Hall Havg Hanswer.
  assert (requestSum pods ≠ 0%Z) as Hsum.
  { intros Hz. apply Havg. unfold podAvgRequest. rewrite Hz. apply avgRequestMilli_zero_sum. }
  assert (result (GetCPUUtilization h namespace selector) =
            Returned (Some (Go.int64_quo (Go.int64_mul (podAvgConsumption pods (Value s)) 100)
                              (podAvgRequest pods)),
                      TimeOfModel (Timestamp s), None)) as Hres.
  { rewrite (GetCPUUtilization_query h namespace selector pods Hl Hall Hsum).
    unfold result, cpuAnswer. simpl. rewrite Hanswer. simpl.
    fold (podAvgRequest pods). by apply Z.eqb_neq in Havg as ->. }
  split; [done|]. split.
  - intros Hcons Hreq. unfold Go.int64_mul.
    rewrite wrap64_small by (unfold Go.in_int64, Go.MinInt64, Go.MaxInt64 in *; lia).
    by apply int64_quo_floor.
  - intros a b Hab Hpods Hvalue. rewrite Hres. clear Hres.
    assert (size (eligibleNames pods) = 2) as Hcount.
    { rewrite eligibleNames_size_NoDup; rewrite Hpods; [done|].
      change (NoDup [a; b]). apply NoDup_cons. split; [|apply NoDup_singleton].
      intros Hin. by apply list_elem_of_singleton in Hin. }
    unfold podAvgConsumption, podAvgRequest. rewrite Hcount, Hvalue.
    assert (requestSum pods = 400%Z) as -> by (rewrite Hpods; reflexivity).
    reflexivity.
Qed.

Lemma GetCPUUtilization_percentage_witness :
  result (GetCPUUtilization hTwo ns sel) =
    Returned (Some 100%Z, TimeOfModel 17, None).
Proof.
  destruct (GetCPUUtilization_percentage hTwo ns sel twoRunning
              (Fixture.sample v04 17) []) as (_ & _ & Hscenario).
  - reflexivity.
  - by_evaluation.
  - vm_compute. discriminate.
  - reflexivity.
  - apply (Hscenario "a" "b"); [discriminate | reflexivity | reflexivity].
Defined.

(** C1: the program diverges from the claim on an input that the claim
    covers. Two running pods request 1m and 0m, each container with an
    explicit request, so the sum of the requests is 1, not zero; the backend
    answers the query with a vector of one sample. The guard of
    [GetCpuConsumptionAndRequestInMillis] looks at the sum only; the average
    request, 1 divided by 2 as [int64], is 0, and the division of
    [GetCPUUtilization] by it is not guarded: the run sends its query and
    ends in the panic of an integer division by zero, where the claim has it
    return a percentage. *)
Theorem GetCPUUtilization_zero_average_panics :
  client_List hSmall ns sel = (smallRequests, None)
  ∧ runningPods smallRequests = smallRequests
  ∧ allRequested smallRequests
  ∧ runningRequests smallRequests = [1; 0]%Z
  ∧ requestSum smallRequests = 1%Z
  ∧ queryAPI_Query hSmall (cpuQuery ns "(a|b|).*") =
      (ValVector [Fixture.sample v04 17], None)
  ∧ result (GetCpuConsumptionAndRequestInMillis hSmall ns sel) =
      Returned (200%Z, 0%Z, TimeOfModel 17, None)
  ∧ GetCPUUtilization hSmall ns sel =
      ([cpuQuery ns "(a|b|).*"], Panicked PanicDivideByZero).
Proof.
  split; [reflexivity|]. split; [reflexivity|]. split; [by_evaluation|].
  repeat split; vm_compute; reflexivity.
Qed.

(** The average consumption is cut to whole milli-units before the
    percentage is taken: a sample of 1.9 milli-cores counts as 1. *)
Lemma GetCPUUtilization_whole_millis :
  avgConsumptionMilli v0019 1 = 1%Z
  ∧ result (GetCPUUtilization hTenMilli ns sel) =
      Returned (Some 10%Z, TimeOfModel 17, None).
Proof. split; vm_compute; reflexivity. Qed.

(** Running pods that share a name count once in the divisor. *)
Lemma GetCPUUtilization_same_name_counts_once :
  length (runningPods sameName) = 2 ∧ size (eligibleNames sameName) = 1
  ∧ result (GetCPUUtilization hSameName "" sel) =
      Returned (Some 16666%Z, TimeOfModel 17, None)
  ∧ claimedUtilization sameName 0.5 = 25000%Z.
Proof. repeat split; vm_compute; reflexivity. Qed.

(** *** Missing requests *)

(** The division of the request sum by the number of names never panics:
    past the guards the sum is not zero, so a pod is running and the set of
    names is not empty. *)
Lemma GetCpuConsumptionAndRequestInMillis_divides_safely h namespace selector :
  result (GetCpuConsumptionAndRequestInMillis h namespace selector)
    ≠ Panicked PanicDivideByZero.
Proof.
  unfold GetCpuConsumptionAndRequestInMillis.
  destruct (client_List h namespace selector) as [pods [err|]]; [done|].
  rewrite aggregate_spec.
  destruct (bool_decide (size (eligibleNames pods) = 0) && bool_decide (0 < length pods));
    [done|].
  destruct (bool_decide (¬ allRequested pods)); [done|]. simpl.
  destruct (requestSum pods =? 0)%Z eqn:Hsum; [done|]. apply Z.eqb_neq in Hsum.
  assert (size (eligibleNames pods) ≠ 0) as Hsize.
  { rewrite eligibleNames_size_0. by apply requestSum_nonzero_running. }
  unfold int64_div. rewrite (proj2 (Z.eqb_neq _ 0)) by lia.
  unfold getCpuUtilizationForPods, Query.
  destruct (queryAPI_Query h _) as [r [e|]]; [done|].
  by destruct r as [|?|[|m0 v]|?|? ?].
Qed.

(** The claim of C5 fails as it is stated: on a list of pending pods the
    sum over the running pods is zero, and the error is "no running pods",
    not the missing request. *)
Lemma missing_request_not_on_pending_list :
  (¬ allRequested allPending ∨ requestTotal allPending = 0%Z)
  ∧ result (GetCPUUtilization hPending ns sel) =
      Returned (None, TimeZero, Some (ErrCpuConsumptionAndRequest ErrNoRunningPods))
  ∧ result (GetCPUUtilization hPending ns sel) ≠
      Returned (None, TimeZero, Some (ErrCpuConsumptionAndRequest ErrNoCpuRequest)).
Proof.
  split; [by right|]. split; [reflexivity | discriminate].
Qed.

(** C5, amended: when the listing succeeds and the list is empty or has a
    running pod, [GetCPUUtilization] returns the wrapped "some pods do not
    have request for cpu" error exactly when a container of a running pod has
    no CPU request or the [int64] sum of the requests is zero, and then
    without a query; one container without a request is enough, whatever the
    other requests. The sum and the number of names are not zero where the
    sum is divided, and that division does not panic. *)
Theorem missing_request_iff
    (h : PrometheusMetricsClient) (namespace selector : string) (pods : list Pod) :
  client_List h namespace selector = (pods, None) →
  pods = [] ∨ Exists (λ pod, Phase pod = PodRunning) pods →
  (result (GetCPUUtilization h namespace selector) =
     Returned (None, TimeZero, Some (ErrCpuConsumptionAndRequest ErrNoCpuRequest))
   ↔ ¬ allRequested pods ∨ requestSum pods = 0%Z)
  ∧ (¬ allRequested pods ∨ requestSum pods = 0%Z →
     issued (GetCPUUtilization h namespace selector) = [])
  ∧ (∀ pod c, pod ∈ pods → Phase pod = PodRunning → c ∈ Containers pod →
              cpuRequest c = None →
     result (GetCPUUtilization h namespace selector) =
       Returned (None, TimeZero, Some (ErrCpuConsumptionAndRequest ErrNoCpuRequest)))
  ∧ (allRequested pods → requestSum pods ≠ 0%Z → size (eligibleNames pods) ≠ 0)
  ∧ result (GetCpuConsumptionAndRequestInMillis h namespace selector)
      ≠ Panicked PanicDivideByZero.
Proof.
  intros Hl Hpods.
  assert (pods = [] ∨ runningPods pods ≠ []) as Hpods'.
  { destruct Hpods as [-> | Hex]; [by left|]. right. by apply filter_Exists_ne. }
  assert (¬ allRequested pods ∨ requestSum pods = 0%Z →
          GetCPUUtilization h namespace selector = ([], Returned (wrapped ErrNoCpuRequest)))
    as Hfail.
  { intros Hreq. by apply (GetCPUUtilization_no_request h namespace selector pods). }
  split; [split|split; [|split; [|split]]].
  - intros Hres.
    destruct (decide (allRequested pods)) as [Hall|]; [|by left]. right.
    destruct (decide (requestSum pods = 0%Z)) as [|Hsum]; [done|]. exfalso.
    rewrite (GetCPUUtilization_query h namespace selector pods Hl Hall Hsum) in Hres.
    unfold result, cpuAnswer, wrapped in Hres. simpl in Hres.
    destruct (queryAPI_Query h _) as [r [err|]]; simpl in Hres; [discriminate|].
    destruct r as [|?|[|m0 ms]|?|? ?]; try discriminate.
    destruct (avgRequestMilli _ _ =? 0)%Z; discriminate.
  - intros Hreq. by rewrite Hfail.
  - intros Hreq. by rewrite Hfail.
  - intros pod c Hpod Hphase Hc Hnone. rewrite Hfail; [done|]. left.
    unfold allRequested. rewrite Forall_forall. intros Hall.
    assert (pod ∈ runningPods pods) as Hrun by by apply list_elem_of_filter.
    specialize (Hall pod Hrun). rewrite Forall_forall in Hall.
    destruct (Hall c Hc) as [r Hr]. congruence.
  - intros _ Hsum. rewrite eligibleNames_size_0. by apply requestSum_nonzero_running.
  - apply GetCpuConsumptionAndRequestInMillis_divides_safely.
Qed.

Lemma missing_request_iff_witness :
  issued (GetCPUUtilization hOneBare ns sel) = []
  ∧ result (GetCPUUtilization hOneBare ns sel) =
      Returned (None, TimeZero, Some (ErrCpuConsumptionAndRequest ErrNoCpuRequest)).
Proof.
  destruct (missing_request_iff hOneBare ns sel oneBare) as (Hiff & Hquiet & _).
  - reflexivity.
  - right. apply Exists_cons_hd. reflexivity.
  - assert (¬ allRequested oneBare) as Hmissing by by_evaluation.
    split; [apply Hquiet | apply Hiff]; by left.
Defined.

(** *** The empty pod list *)

(** The claim of C4 fails as it is stated: on an empty pod list both entry
    points can return an error. *)
Lemma empty_list_returns_errors :
  client_List hNoPods ns sel = ([], None)
  ∧ result (GetCPUUtilization hNoPods ns sel) =
      Returned (None, TimeZero, Some (ErrCpuConsumptionAndRequest ErrNoCpuRequest))
  ∧ result (GetCustomMetric hNoPods metric ns sel) =
      Returned (None, TimeZero, Some (ErrMetricMissing metric "().*")).
Proof. repeat split. Qed.

(** C4, amended: when the listing returns an empty list, neither entry point
    reports a listing error or "no running pods". [GetCPUUtilization] returns
    the wrapped "some pods do not have request for cpu" error without a
    query. [GetCustomMetric] issues its query with the pattern [().*] and
    goes by the answer with a pod count of zero: the errors of a failed query
    and of an empty vector, and for a non-empty vector the first sample's
    value divided by the [float64] zero, with the sample's time. *)
Theorem empty_list_runs
    (h : PrometheusMetricsClient) (customMetricName namespace selector : string) :
  client_List h namespace selector = ([], None) →
  GetCPUUtilization h namespace selector =
    ([], Returned (None, TimeZero, Some (ErrCpuConsumptionAndRequest ErrNoCpuRequest)))
  ∧ issued (GetCustomMetric h customMetricName namespace selector) =
      [customQuery customMetricName namespace "().*"]
  ∧ (∀ r err,
       queryAPI_Query h (customQuery customMetricName namespace "().*") = (r, Some err) →
       result (GetCustomMetric h customMetricName namespace selector) =
         Returned (None, TimeZero, Some (ErrQuery customMetricName "().*" err)))
  ∧ (queryAPI_Query h (customQuery customMetricName namespace "().*") = (ValVector [], None) →
     result (GetCustomMetric h customMetricName namespace selector) =
       Returned (None, TimeZero, Some (ErrMetricMissing customMetricName "().*")))
  ∧ (∀ s rest,
       queryAPI_Query h (customQuery customMetricName namespace "().*")
         = (ValVector (s :: rest), None) →
       result (GetCustomMetric h customMetricName namespace selector) =
         Returned (Some (PrimFloat.div (Value s) (Go.float64_of_int 0)),
                   TimeOfModel (Timestamp s), None)).
Proof.
  intros Hl. split.
  { apply (GetCPUUtilization_no_request h namespace selector []); auto. }
  rewrite (GetCustomMetric_query h namespace selector customMetricName [] Hl) by auto.
  change (podListReg (Name <$> notPendingPods [])) with "().*".
  unfold result, issued, customAnswer. simpl. repeat split.
  - intros r err ->. done.
  - intros ->. done.
  - intros s rest ->. done.
Qed.

Lemma empty_list_runs_witness :
  GetCPUUtilization hNoPodsSample ns sel =
    ([], Returned (None, TimeZero, Some (ErrCpuConsumptionAndRequest ErrNoCpuRequest)))
  ∧ result (GetCustomMetric hNoPodsSample metric ns sel) =
      Returned (Some infinity, TimeOfModel 17, None).
Proof.
  destruct (empty_list_runs hNoPodsSample metric ns sel eq_refl)
    as (Hcpu & _ & _ & _ & Hvalue).
  split; [exact Hcpu|]. apply (Hvalue (Fixture.sample 30 17) []). reflexivity.
Defined.

(** *** Results that are not vectors *)

(** The claim of C3 fails as it is stated: on a scalar result both entry
    points panic. *)
Lemma scalar_result_panics :
  result (GetCPUUtilization hScalar ns sel) = Panicked PanicInterfaceConversion
  ∧ result (GetCustomMetric hScalar metric ns sel) =
      Panicked PanicInterfaceConversion.
Proof. split; reflexivity. Qed.

(** C3, amended: when the backend answers the query of an entry point,
    without an error, with a result that is not a vector, the entry point
    panics on the type assertion; it returns no error value. *)
Theorem non_vector_result_panics
    (h : PrometheusMetricsClient) (customMetricName namespace selector : string) :
  (∀ q r, issued (GetCPUUtilization h namespace selector) = [q] →
          queryAPI_Query h q = (r, None) → is_vector r = false →
          result (GetCPUUtilization h namespace selector) =
            Panicked PanicInterfaceConversion)
  ∧ (∀ q r, issued (GetCustomMetric h customMetricName namespace selector) = [q] →
            queryAPI_Query h q = (r, None) → is_vector r = false →
            result (GetCustomMetric h customMetricName namespace selector) =
              Panicked PanicInterfaceConversion).
Proof.
  split; intros q r Hq Hanswer Hshape.
  - destruct (GetCPUUtilization_cases h namespace selector)
      as [(e & Hrun & _) | (pods & _ & _ & _ & Hrun)];
      rewrite Hrun in Hq |- *; [done|].
    injection Hq as <-. unfold result, cpuAnswer. simpl. rewrite Hanswer. simpl.
    by destruct r.
  - destruct (GetCustomMetric_cases h namespace selector customMetricName)
      as [(e & Hrun & _) | (pods & _ & Hrun)];
      rewrite Hrun in Hq |- *; [done|].
    injection Hq as <-. unfold result, customAnswer. simpl. rewrite Hanswer. simpl.
    by destruct r.
Qed.

Lemma non_vector_result_panics_witness :
  result (GetCPUUtilization hMatrix ns sel) = Panicked PanicInterfaceConversion
  ∧ result (GetCustomMetric hMatrix metric ns sel) =
      Panicked PanicInterfaceConversion.
Proof.
  destruct (non_vector_result_panics hMatrix metric ns sel)
    as [Hcpu Hcustom].
  split.
  - apply (Hcpu (cpuQuery ns "(a|b|).*") (ValMatrix [])); reflexivity.
  - apply (Hcustom (customQuery metric ns "(a|b|).*") (ValMatrix []));
      reflexivity.
Defined.

(** *** The pod-name pattern *)

Section Pattern.

Lemma string_app_cons c (s1 s2 : string) : String c s1 +:+ s2 = String c (s1 +:+ s2).
Proof. reflexivity. Qed.

Lemma string_app_assoc (s1 s2 s3 : string) : (s1 +:+ s2) +:+ s3 = s1 +:+ s2 +:+ s3.
Proof.
  induction s1 as [|c s1 IH]; [done|]. by rewrite !string_app_cons, IH.
Qed.

Lemma string_length_app (s1 s2 : string) :
  String.length (s1 +:+ s2) = String.length s1 + String.length s2.
Proof.
  induction s1 as [|c s1 IH]; [done|]. rewrite string_app_cons. simpl. by rewrite IH.
Qed.

Lemma foldl_appendName_length podNames acc :
  String.length (foldl appendName acc podNames) = String.length acc + namesLength podNames.
Proof.
  revert acc. induction podNames as [|n l IH]; intros acc; simpl; [lia|].
  rewrite IH. unfold appendName. rewrite !string_length_app. simpl. lia.
Qed.

Lemma concat_length podNames :
  podNames ≠ [] →
  String.length (String.concat "|" podNames) + 1 = namesLength podNames.
Proof.
  induction podNames as [|n l IH]; [done|]. intros _.
  destruct l as [|n' l]; [simpl; lia|].
  change (String.concat "|" (n :: n' :: l))
    with (n +:+ "|" +:+ String.concat "|" (n' :: l)).
  change (namesLength (n :: n' :: l))
    with (String.length n + 1 + namesLength (n' :: l)).
  rewrite <- IH by done.
  generalize (String.concat "|" (n' :: l)). intros joined.
  rewrite !string_length_app. change (String.length "|") with 1. lia.
Qed.

(** The separator appended after the last name stays in the pattern. *)
Lemma podListReg_snoc podNames podName :
  podListReg (podNames ++ [podName]) =
    foldl appendName "(" podNames +:+ podName +:+ "|).*".
Proof.
  unfold podListReg. rewrite foldl_app. simpl. unfold appendName at 1.
  by rewrite !string_app_assoc.
Qed.

(** So the pattern is one character longer than the names joined by the
    separator, for every non-empty list of names. *)
Lemma podListReg_longer podNames :
  podNames ≠ [] →
  String.length (podListReg podNames) = S (String.length (joinedPattern podNames)).
Proof.
  intros Hne. unfold podListReg, joinedPattern.
  rewrite !string_length_app, foldl_appendName_length.
  rewrite <- (concat_length podNames Hne). simpl. lia.
Qed.

Lemma podListReg_not_joined podNames :
  podNames ≠ [] → podListReg podNames ≠ joinedPattern podNames.
Proof.
  intros Hne Heq. apply podListReg_longer in Hne. rewrite Heq in Hne. lia.
Qed.

End Pattern.

(** C2: the pattern sent to the backend is not the names joined by the
    separator. With the single running pod [a] both entry points send the
    pattern [(a|).*], which keeps the separator that [strings.TrimSuffix]
    would have removed, where the joined names give [(a).*]. *)
Theorem single_pod_pattern_has_trailing_separator :
  issued (GetCPUUtilization hSingle ns sel) =
    ["sum(rate({__name__='container_cpu_usage_seconds_total',namespace='ns1',pod_name=~'(a|).*'}[30m]))"]
  ∧ issued (GetCustomMetric hSingle metric ns sel) =
      ["sum({__name__='qps',kubernetes_namespace='ns1',kubernetes_pod_name=~'(a|).*'})"]
  ∧ podListReg ["a"] = "(a|).*"
  ∧ joinedPattern ["a"] = "(a).*"
  ∧ Go.TrimSuffix (foldl appendName "(" ["a"]) "|" +:+ ").*" = "(a).*".
Proof. repeat split. Qed.


(** ** Further properties of the pipeline *)

(** *** Runs of [GetCpuConsumptionAndRequestInMillis] *)

Section MillisRuns.

Variable h : PrometheusMetricsClient.
Variables namespace selector : string.

Lemma millis_list_error pods err :
  client_List h namespace selector = (pods, Some err) →
  GetCpuConsumptionAndRequestInMillis h namespace selector =
    ([], Returned (0%Z, 0%Z, TimeZero, Some (ErrPodList err))).
Proof. intros Hl. unfold GetCpuConsumptionAndRequestInMillis. by rewrite Hl. Qed.

Lemma millis_no_running pods :
  client_List h namespace selector = (pods, None) →
  runningPods pods = [] → pods ≠ [] →
  GetCpuConsumptionAndRequestInMillis h namespace selector =
    ([], Returned (0%Z, 0%Z, TimeZero, Some ErrNoRunningPods)).
Proof.
  intros Hl Hrun Hne. unfold GetCpuConsumptionAndRequestInMillis.
  rewrite Hl, aggregate_spec.
  rewrite (bool_decide_true (size _ = 0)) by by apply eligibleNames_size_0.
  rewrite (bool_decide_true (0 < _)); [done|].
  destruct pods; [done | simpl; lia].
Qed.

Lemma millis_no_request pods :
  client_List h namespace selector = (pods, None) →
  pods = [] ∨ runningPods pods ≠ [] →
  ¬ allRequested pods ∨ requestSum pods = 0%Z →
  GetCpuConsumptionAndRequestInMillis h namespace selector =
    ([], Returned (0%Z, 0%Z, TimeZero, Some ErrNoCpuRequest)).
Proof.
  intros Hl Hpods Hreq. unfold GetCpuConsumptionAndRequestInMillis.
  rewrite Hl, aggregate_spec.
  assert (bool_decide (size (eligibleNames pods) = 0) && bool_decide (0 < length pods)
          = false) as ->.
  { destruct Hpods as [-> | Hrun]; [done|].
    rewrite bool_decide_false; [done|]. by rewrite eligibleNames_size_0. }
  assert (bool_decide (¬ allRequested pods) || (requestSum pods =? 0)%Z = true) as ->.
  { destruct Hreq as [Hmiss | Hzero].
    - by rewrite bool_decide_true.
    - rewrite Hzero. by rewrite orb_true_r. }
  done.
Qed.

Lemma millis_query pods :
  client_List h namespace selector = (pods, None) →
  allRequested pods → requestSum pods ≠ 0%Z →
  GetCpuConsumptionAndRequestInMillis h namespace selector =
    ([cpuQuery namespace (podListReg (map_range h (eligibleNames pods)))],
     millisAnswer (podListReg (map_range h (eligibleNames pods)))
       (size (eligibleNames pods)) (requestSum pods)
       (queryAPI_Query h
          (cpuQuery namespace (podListReg (map_range h (eligibleNames pods)))))).
Proof.
  intros Hl Hall Hsum.
  assert (size (eligibleNames pods) ≠ 0) as Hsize.
  { rewrite eligibleNames_size_0. by apply requestSum_nonzero_running. }
  unfold GetCpuConsumptionAndRequestInMillis.
  rewrite Hl, aggregate_spec.
  rewrite (bool_decide_false (size _ = 0)) by done.
  rewrite (bool_decide_false (¬ _)) by (intros H; by apply H).
  apply Z.eqb_neq in Hsum as ->. simpl.
  unfold int64_div. rewrite (proj2 (Z.eqb_neq _ 0)) by lia.
  unfold getCpuUtilizationForPods, Query.
  unfold millisAnswer, avgRequestMilli, avgConsumptionMilli.
  destruct (queryAPI_Query h _) as [r [e|]]; [done|].
  by destruct r as [|?|[|m0 v]|?|? ?].
Qed.

Lemma millis_cases :
  (∃ e, GetCpuConsumptionAndRequestInMillis h namespace selector =
          ([], Returned (0%Z, 0%Z, TimeZero, Some e))
        ∧ failurePath e = true)
  ∨ (∃ pods,
       client_List h namespace selector = (pods, None)
       ∧ allRequested pods ∧ requestSum pods ≠ 0%Z
       ∧ GetCpuConsumptionAndRequestInMillis h namespace selector =
           ([cpuQuery namespace (podListReg (map_range h (eligibleNames pods)))],
            millisAnswer (podListReg (map_range h (eligibleNames pods)))
              (size (eligibleNames pods)) (requestSum pods)
              (queryAPI_Query h
                 (cpuQuery namespace (podListReg (map_range h (eligibleNames pods))))))).
Proof.
  destruct (client_List h namespace selector) as [pods [err|]] eqn:Hl.
  { left. exists (ErrPodList err). split; [|done]. by eapply millis_list_error. }
  destruct (decide (allRequested pods ∧ requestSum pods ≠ 0%Z)) as [[Hall Hsum]|Hno].
  { right. exists pods. repeat split; try done. by apply millis_query. }
  assert (¬ allRequested pods ∨ requestSum pods = 0%Z) as Hreq.
  { destruct (decide (allRequested pods)); [|by left].
    right. destruct (decide (requestSum pods = 0%Z)); [done|]. tauto. }
  left. destruct pods as [|pod pods].
  { exists ErrNoCpuRequest. split; [|done]. apply (millis_no_request []); auto. }
  destruct (runningPods (pod :: pods)) as [|r rs] eqn:Hrun.
  { exists ErrNoRunningPods. split; [|done]. by eapply millis_no_running. }
  exists ErrNoCpuRequest. split; [|done]. eapply millis_no_request; eauto.
  right. by rewrite Hrun.
Qed.

End MillisRuns.

(** *** The phase filters *)

(** C9: the two entry points filter by phase differently. In the loop of
    [GetCpuConsumptionAndRequestInMillis] a name is in the eligible set
    exactly when a Running pod of the list bears it, the sum is that of the
    requests of the Running pods, and the loop gives the same set, sum and
    missing flag on the list without the pods that are not Running. The loop
    of [GetCustomMetric] collects the names of exactly the pods that are not
    Pending, so its divisor is their number, and gives the same on the list
    without the Pending pods. The entry points return what these loops
    compute: [GetCpuConsumptionAndRequestInMillis] queries for the names of
    the Running pods and returns the first sample and the sum of the requests
    of the Running pods, each divided by the number of those names;
    [GetCustomMetric] queries for the names of the pods that are not Pending
    and returns the first sample divided by their number. So two listings
    with the same Running pods, and two with the same pods that are not
    Pending, give the same result when the backend answers with the same
    first sample, each run visiting its map in an order of its own. *)
Theorem phase_filters (pods : list Pod) :
  let names : gset string := list_to_set (Name <$> runningPods pods) in
  (∀ name, name ∈ (foldl addPod (∅, 0%Z, false) pods).1.1 ↔
           ∃ pod, pod ∈ pods ∧ Phase pod = PodRunning ∧ Name pod = name)
  ∧ (foldl addPod (∅, 0%Z, false) pods).1.2 = Go.wrap64 (Zsum (runningRequests pods))
  ∧ foldl addPod (∅, 0%Z, false) pods = foldl addPod (∅, 0%Z, false) (runningPods pods)
  ∧ foldl appendNotPending [] pods = Name <$> notPendingPods pods
  ∧ length (foldl appendNotPending [] pods) = length (notPendingPods pods)
  ∧ foldl appendNotPending [] pods = foldl appendNotPending [] (notPendingPods pods)
  ∧ (∀ h namespace selector s rest,
       client_List h namespace selector = (pods, None) →
       allRequested pods → requestSum pods ≠ 0%Z →
       queryAPI_Query h (cpuQuery namespace (podListReg (map_range h names)))
         = (ValVector (s :: rest), None) →
       GetCpuConsumptionAndRequestInMillis h namespace selector =
         ([cpuQuery namespace (podListReg (map_range h names))],
          Returned
            (Go.int64_of_float64
               (PrimFloat.div (PrimFloat.mul (Value s) 1000%float)
                  (Go.float64_of_int (Z.of_nat (size names)))),
             Go.int64_quo (Go.wrap64 (Zsum (runningRequests pods))) (Z.of_nat (size names)),
             TimeOfModel (Timestamp s), None)))
  ∧ (∀ h customMetricName namespace selector s rest,
       client_List h namespace selector = (pods, None) →
       pods = [] ∨ Exists (λ pod, Phase pod ≠ PodPending) pods →
       queryAPI_Query h
         (customQuery customMetricName namespace (podListReg (Name <$> notPendingPods pods)))
         = (ValVector (s :: rest), None) →
       GetCustomMetric h customMetricName namespace selector =
         ([customQuery customMetricName namespace (podListReg (Name <$> notPendingPods pods))],
          Returned
            (Some (PrimFloat.div (Value s)
                     (Go.float64_of_int (Z.of_nat (length (notPendingPods pods))))),
             TimeOfModel (Timestamp s), None)))
  ∧ (∀ h h' namespace selector pods' s rest rest',
       runningPods pods' = runningPods pods →
       client_List h namespace selector = (pods, None) →
       client_List h' namespace selector = (pods', None) →
       allRequested pods → requestSum pods ≠ 0%Z →
       queryAPI_Query h (cpuQuery namespace (podListReg (map_range h names)))
         = (ValVector (s :: rest), None) →
       queryAPI_Query h' (cpuQuery namespace (podListReg (map_range h' names)))
         = (ValVector (s :: rest'), None) →
       result (GetCpuConsumptionAndRequestInMillis h namespace selector) =
         result (GetCpuConsumptionAndRequestInMillis h' namespace selector))
  ∧ (∀ h h' customMetricName namespace selector pods' s rest rest',
       notPendingPods pods' = notPendingPods pods →
       client_List h namespace selector = (pods, None) →
       client_List h' namespace selector = (pods', None) →
       Exists (λ pod, Phase pod ≠ PodPending) pods →
       queryAPI_Query h
         (customQuery customMetricName namespace (podListReg (Name <$> notPendingPods pods)))
         = (ValVector (s :: rest), None) →
       queryAPI_Query h'
         (customQuery customMetricName namespace (podListReg (Name <$> notPendingPods pods)))
         = (ValVector (s :: rest'), None) →
       result (GetCustomMetric h customMetricName namespace selector) =
         result (GetCustomMetric h' customMetricName namespace selector)).
Proof.
  intros names.
  assert (∀ l h namespace selector s rest,
            client_List h namespace selector = (l, None) →
            allRequested l → requestSum l ≠ 0%Z →
            queryAPI_Query h (cpuQuery namespace (podListReg (map_range h (eligibleNames l))))
              = (ValVector (s :: rest), None) →
            GetCpuConsumptionAndRequestInMillis h namespace selector =
              ([cpuQuery namespace (podListReg (map_range h (eligibleNames l)))],
               Returned (podAvgConsumption l (Value s), podAvgRequest l,
                         TimeOfModel (Timestamp s), None))) as Hcpu.
  { intros l h namespace selector s rest Hl Hall Hsum Hanswer.
    rewrite (millis_query h namespace selector l Hl Hall Hsum).
    unfold millisAnswer. by rewrite Hanswer. }
  assert (∀ l h customMetricName namespace selector s rest,
            client_List h namespace selector = (l, None) →
            l = [] ∨ Exists (λ pod, Phase pod ≠ PodPending) l →
            queryAPI_Query h
              (customQuery customMetricName namespace (podListReg (Name <$> notPendingPods l)))
              = (ValVector (s :: rest), None) →
            GetCustomMetric h customMetricName namespace selector =
              ([customQuery customMetricName namespace (podListReg (Name <$> notPendingPods l))],
               Returned
                 (Some (PrimFloat.div (Value s)
                          (Go.float64_of_int (Z.of_nat (length (notPendingPods l))))),
                  TimeOfModel (Timestamp s), None))) as Hcustom.
  { intros l h customMetricName namespace selector s rest Hl Hne Hanswer.
    rewrite (GetCustomMetric_query h namespace selector customMetricName l Hl).
    - unfold customAnswer. by rewrite Hanswer.
    - destruct Hne as [?|Hex]; [by left|]. right. by apply filter_Exists_ne. }
  split; [|split; [|split; [|split; [|split; [|split; [|split; [|split; [|split]]]]]]]].
  - intros name. rewrite aggregate_spec. simpl. by rewrite elem_of_eligibleNames.
  - by rewrite aggregate_spec.
  - apply aggregate_running.
  - apply collect_spec.
  - by rewrite collect_spec, length_fmap.
  - apply collect_notPending.
  - intros h namespace selector s rest Hl Hall Hsum Hanswer.
    apply (Hcpu pods h namespace selector s rest Hl Hall Hsum Hanswer).
  - apply Hcustom.
  - intros h h' namespace selector pods' s rest rest' Hsame Hl Hl' Hall Hsum Hanswer Hanswer'.
    assert (eligibleNames pods' = names) as Hnames
      by (unfold eligibleNames; by rewrite Hsame).
    assert (requestSum pods' = requestSum pods) as Hsum'
      by (unfold requestSum, requestTotal, runningRequests; by rewrite Hsame).
    assert (allRequested pods') as Hall'
      by (unfold allRequested; by rewrite Hsame).
    rewrite (Hcpu pods h namespace selector s rest Hl Hall Hsum Hanswer).
    rewrite (Hcpu pods' h' namespace selector s rest' Hl' Hall');
      [|by rewrite Hsum'|by rewrite Hnames].
    unfold result, podAvgConsumption, podAvgRequest. simpl.
    by rewrite Hnames, Hsum'.
  - intros h h' customMetricName namespace selector pods' s rest rest'
      Hsame Hl Hl' Hex Hanswer Hanswer'.
    rewrite (Hcustom pods h customMetricName namespace selector s rest Hl
               (or_intror Hex) Hanswer).
    rewrite (Hcustom pods' h' customMetricName namespace selector s rest' Hl');
      [by rewrite Hsame| |by rewrite Hsame].
    right. apply Exists_exists.
    assert (notPendingPods pods' ≠ []) as Hne
      by (rewrite Hsame; by apply filter_Exists_ne).
    destruct (notPendingPods pods') as [|pod l] eqn:Hf; [done|].
    assert (pod ∈ notPendingPods pods') as Hin by (rewrite Hf; left).
    unfold notPendingPods in Hin. apply list_elem_of_filter in Hin as [Hphase Hin].
    by exists pod.
Qed.

Lemma phase_filters_witness :
  GetCpuConsumptionAndRequestInMillis hThree ns sel =
    ([cpuQuery ns "(a|).*"], Returned (30000%Z, 100%Z, TimeOfModel 17, None))
  ∧ GetCustomMetric hThree metric ns sel =
      ([customQuery metric ns "(a|b|d|).*"],
       Returned (Some 10%float, TimeOfModel 17, None)).
Proof.
  destruct (phase_filters threeEligible)
    as (_ & _ & _ & _ & _ & _ & Hcpu & Hcustom & _).
  split.
  - rewrite (Hcpu hThree ns sel (Fixture.sample 30 17) []).
    + vm_compute. reflexivity.
    + reflexivity.
    + by_evaluation.
    + vm_compute. discriminate.
    + reflexivity.
  - rewrite (Hcustom hThree metric ns sel (Fixture.sample 30 17) []).
    + vm_compute. reflexivity.
    + reflexivity.
    + right. apply Exists_cons_hd. discriminate.
    + reflexivity.
Defined.

(** X1. What [GetCpuConsumptionAndRequestInMillis] returns. With an error, the
    two averages are 0 and the time is the zero time, and the error is one of
    the failures of the pipeline. Without an error the listing succeeded,
    every container of every running pod has a request, the sum is not zero,
    and the backend answered the query with a non-empty vector: the request
    is the sum divided by the number of names, the consumption is that of
    the first sample, and the time is the first sample's. *)
Theorem GetCpuConsumptionAndRequestInMillis_returns
    (h : PrometheusMetricsClient) (namespace selector : string)
    (consumption request : Z) (timestamp : time_Time) (err : option error) :
  result (GetCpuConsumptionAndRequestInMillis h namespace selector) =
    Returned (consumption, request, timestamp, err) →
  match err with
  | Some e =>
      consumption = 0%Z ∧ request = 0%Z ∧ timestamp = TimeZero ∧ failurePath e = true
  | None =>
      ∃ pods s rest,
        client_List h namespace selector = (pods, None)
        ∧ allRequested pods ∧ requestSum pods ≠ 0%Z
        ∧ queryAPI_Query h
            (cpuQuery namespace (podListReg (map_range h (eligibleNames pods))))
            = (ValVector (s :: rest), None)
        ∧ consumption = podAvgConsumption pods (Value s)
        ∧ request = podAvgRequest pods
        ∧ timestamp = TimeOfModel (Timestamp s)
  end.
Proof.
  intros Hres.
  destruct (millis_cases h namespace selector)
    as [(e & Hrun & Hpath) | (pods & Hl & Hall & Hsum & Hrun)]; rewrite Hrun in Hres.
  - injection Hres as <- <- <- <-. done.
  - unfold result, millisAnswer in Hres. simpl in Hres.
    destruct (queryAPI_Query h _) as [r [e|]] eqn:Hanswer; simpl in Hres.
    { injection Hres as <- <- <- <-. done. }
    destruct r as [|?|[|m0 ms]|?|? ?]; try discriminate.
    { injection Hres as <- <- <- <-. done. }
    injection Hres as <- <- <- <-. exists pods, m0, ms. done.
Qed.

Lemma GetCpuConsumptionAndRequestInMillis_returns_witness :
  ∃ pods s rest,
    client_List hTwo ns sel = (pods, None)
    ∧ allRequested pods ∧ requestSum pods ≠ 0%Z
    ∧ queryAPI_Query hTwo (cpuQuery ns (podListReg (map_range hTwo (eligibleNames pods))))
        = (ValVector (s :: rest), None)
    ∧ 200%Z = podAvgConsumption pods (Value s)
    ∧ 200%Z = podAvgRequest pods
    ∧ TimeOfModel 17 = TimeOfModel (Timestamp s).
Proof.
  apply (GetCpuConsumptionAndRequestInMillis_returns hTwo ns sel 200 200 (TimeOfModel 17) None).
  reflexivity.
Defined.

(** X2. When the listing of the pods fails, the pods it may have returned are
    not looked at and the backend is not queried: each function returns the
    "failed to get pod list" error that carries the cause, and
    [GetCPUUtilization] wraps it once more. *)
Theorem listing_failure_is_returned
    (h : PrometheusMetricsClient) (customMetricName namespace selector : string)
    (pods : list Pod) (cause : error) :
  client_List h namespace selector = (pods, Some cause) →
  GetCpuConsumptionAndRequestInMillis h namespace selector =
    ([], Returned (0%Z, 0%Z, TimeZero, Some (ErrPodList cause)))
  ∧ GetCPUUtilization h namespace selector =
      ([], Returned (None, TimeZero, Some (ErrCpuConsumptionAndRequest (ErrPodList cause))))
  ∧ GetCustomMetric h customMetricName namespace selector =
      ([], Returned (None, TimeZero, Some (ErrPodList cause)))
  ∧ Error (ErrCpuConsumptionAndRequest (ErrPodList cause)) =
      "failed to get CPU consumption and request: failed to get pod list: " +:+ Error cause.
Proof.
  intros Hl. split; [by eapply millis_list_error|].
  split; [by eapply GetCPUUtilization_list_error|].
  split; [by eapply GetCustomMetric_list_error|].
  reflexivity.
Qed.

Lemma listing_failure_is_returned_witness :
  GetCPUUtilization hListFails ns sel =
    ([], Returned (None, TimeZero,
                   Some (ErrCpuConsumptionAndRequest (ErrPodList (ErrExternal "timeout")))))
  ∧ GetCustomMetric hListFails metric ns sel =
      ([], Returned (None, TimeZero, Some (ErrPodList (ErrExternal "timeout")))).
Proof.
  destruct (listing_failure_is_returned hListFails metric ns sel twoRunning
              (ErrExternal "timeout") eq_refl) as (_ & Hcpu & Hcustom & _).
  by split.
Defined.

(** X3. When the backend fails the query, the entry point returns the error
    of lines 136 and 194, whose text is "failed to get metrics", the metric,
    " for pods: ", the pattern, " due to: " and the cause, which
    [GetCPUUtilization] wraps once more; this whatever result came with the
    failure: the result is not looked at, so a result that is not a vector
    does not panic here. *)
Theorem query_failure_is_returned
    (h : PrometheusMetricsClient) (customMetricName namespace selector : string) :
  (∀ q r cause,
     issued (GetCPUUtilization h namespace selector) = [q] →
     queryAPI_Query h q = (r, Some cause) →
     ∃ reg, q = cpuQuery namespace reg
            ∧ result (GetCPUUtilization h namespace selector) =
                Returned (None, TimeZero,
                          Some (ErrCpuConsumptionAndRequest
                                  (ErrQuery DefaultCPUUtilizationMetric reg cause)))
            ∧ Error (ErrCpuConsumptionAndRequest
                       (ErrQuery DefaultCPUUtilizationMetric reg cause)) =
                "failed to get CPU consumption and request: "
                  +:+ "failed to get metrics container_cpu_usage_seconds_total for pods: "
                  +:+ reg +:+ " due to: " +:+ Error cause)
  ∧ (∀ q r cause,
       issued (GetCustomMetric h customMetricName namespace selector) = [q] →
       queryAPI_Query h q = (r, Some cause) →
       ∃ reg, q = customQuery customMetricName namespace reg
              ∧ result (GetCustomMetric h customMetricName namespace selector) =
                  Returned (None, TimeZero, Some (ErrQuery customMetricName reg cause))
              ∧ Error (ErrQuery customMetricName reg cause) =
                  "failed to get metrics " +:+ customMetricName +:+ " for pods: "
                    +:+ reg +:+ " due to: " +:+ Error cause).
Proof.
  split; intros q r cause Hq Hanswer.
  - destruct (GetCPUUtilization_cases h namespace selector)
      as [(e & Hrun & _) | (pods & _ & _ & _ & Hrun)];
      rewrite Hrun in Hq |- *; [done|].
    injection Hq as <-. eexists. split; [done|]. split; [|reflexivity].
    unfold result, cpuAnswer. simpl. by rewrite Hanswer.
  - destruct (GetCustomMetric_cases h namespace selector customMetricName)
      as [(e & Hrun & _) | (pods & _ & Hrun)];
      rewrite Hrun in Hq |- *; [done|].
    injection Hq as <-. eexists. split; [done|]. split; [|reflexivity].
    unfold result, customAnswer. simpl. by rewrite Hanswer.
Qed.

Lemma query_failure_is_returned_witness :
  (∃ reg, cpuQuery ns "(a|b|).*" = cpuQuery ns reg
          ∧ result (GetCPUUtilization hQueryFails ns sel) =
              Returned (None, TimeZero,
                        Some (ErrCpuConsumptionAndRequest
                                (ErrQuery DefaultCPUUtilizationMetric reg
                                   (ErrExternal "bad gateway"))))
          ∧ Error (ErrCpuConsumptionAndRequest
                     (ErrQuery DefaultCPUUtilizationMetric reg (ErrExternal "bad gateway"))) =
              "failed to get CPU consumption and request: "
                +:+ "failed to get metrics container_cpu_usage_seconds_total for pods: "
                +:+ reg +:+ " due to: " +:+ Error (ErrExternal "bad gateway"))
  ∧ (∃ reg, customQuery metric ns "(a|b|).*" = customQuery metric ns reg
            ∧ result (GetCustomMetric hQueryFails metric ns sel) =
                Returned (None, TimeZero,
                          Some (ErrQuery metric reg (ErrExternal "bad gateway")))
            ∧ Error (ErrQuery metric reg (ErrExternal "bad gateway")) =
                "failed to get metrics " +:+ metric +:+ " for pods: "
                  +:+ reg +:+ " due to: " +:+ Error (ErrExternal "bad gateway")).
Proof.
  destruct (query_failure_is_returned hQueryFails metric ns sel) as [Hcpu Hcustom].
  split.
  - apply (Hcpu _ (ValScalar (Fixture.sample 1 17))); reflexivity.
  - apply (Hcustom _ (ValScalar (Fixture.sample 1 17))); reflexivity.
Defined.

(** X4. A call of an entry point sends at most one query to the backend, and a
    query that is sent is the one built for the namespace over the names of
    the eligible pods of a successful listing. *)
Theorem at_most_one_query
    (h : PrometheusMetricsClient) (customMetricName namespace selector : string) :
  length (issued (GetCPUUtilization h namespace selector)) ≤ 1
  ∧ length (issued (GetCustomMetric h customMetricName namespace selector)) ≤ 1
  ∧ (∀ q, q ∈ issued (GetCPUUtilization h namespace selector) →
          ∃ pods, client_List h namespace selector = (pods, None)
                  ∧ q = cpuQuery namespace
                          (podListReg (map_range h (eligibleNames pods))))
  ∧ (∀ q, q ∈ issued (GetCustomMetric h customMetricName namespace selector) →
          ∃ pods, client_List h namespace selector = (pods, None)
                  ∧ q = customQuery customMetricName namespace
                          (podListReg (Name <$> notPendingPods pods))).
Proof.
  destruct (GetCPUUtilization_cases h namespace selector)
    as [(e & Hcpu & _) | (pods & Hl & _ & _ & Hcpu)];
  destruct (GetCustomMetric_cases h namespace selector customMetricName)
    as [(e' & Hcustom & _) | (pods' & Hl' & Hcustom)];
  rewrite Hcpu, Hcustom; unfold issued; simpl;
  (split; [lia|]); (split; [lia|]); split; intros q Hq;
  try (by apply not_elem_of_nil in Hq);
  apply list_elem_of_singleton in Hq as ->; eauto.
Qed.

Lemma at_most_one_query_witness :
  (∃ pods, client_List hTwo ns sel = (pods, None)
           ∧ cpuQuery ns "(a|b|).*" =
               cpuQuery ns (podListReg (map_range hTwo (eligibleNames pods))))
  ∧ (∃ pods, client_List hTwo ns sel = (pods, None)
             ∧ customQuery metric ns "(a|b|).*" =
                 customQuery metric ns (podListReg (Name <$> notPendingPods pods))).
Proof.
  destruct (at_most_one_query hTwo metric ns sel) as (_ & _ & Hcpu & Hcustom).
  split; [apply Hcpu | apply Hcustom]; apply list_elem_of_singleton; reflexivity.
Defined.

(** *** What a result tells *)

(** X5. [GetCPUUtilization] returns without an error only when the listing
    succeeded with a running pod, every container of every running pod has a
    request, neither the sum nor the average of the requests is zero, and
    the one query sent was answered with a non-empty vector; the value is
    then never nil. *)
Theorem GetCPUUtilization_success_only_if
    (h : PrometheusMetricsClient) (namespace selector : string)
    (v : option Z) (t : time_Time) :
  result (GetCPUUtilization h namespace selector) = Returned (v, t, None) →
  ∃ pods s rest,
    client_List h namespace selector = (pods, None)
    ∧ Exists (λ pod, Phase pod = PodRunning) pods
    ∧ allRequested pods
    ∧ requestSum pods ≠ 0%Z
    ∧ podAvgRequest pods ≠ 0%Z
    ∧ issued (GetCPUUtilization h namespace selector) =
        [cpuQuery namespace (podListReg (map_range h (eligibleNames pods)))]
    ∧ queryAPI_Query h
        (cpuQuery namespace (podListReg (map_range h (eligibleNames pods))))
        = (ValVector (s :: rest), None)
    ∧ v = Some (Go.int64_quo (Go.int64_mul (podAvgConsumption pods (Value s)) 100)
                  (podAvgRequest pods))
    ∧ t = TimeOfModel (Timestamp s).
Proof.
  intros Hres.
  destruct (GetCPUUtilization_cases h namespace selector)
    as [(e & Hrun & _) | (pods & Hl & Hall & Hsum & Hrun)]; rewrite Hrun in Hres |- *.
  { discriminate. }
  unfold result, cpuAnswer, wrapped in Hres. simpl in Hres.
  destruct (queryAPI_Query h _) as [r [e|]] eqn:Hanswer; simpl in Hres; [discriminate|].
  destruct r as [|?|[|m0 ms]|?|? ?]; try discriminate.
  fold (podAvgRequest pods) in Hres.
  destruct (podAvgRequest pods =? 0)%Z eqn:Havg; [discriminate|].
  apply Z.eqb_neq in Havg. injection Hres as <- <-.
  exists pods, m0, ms. repeat split; try done.
  apply requestSum_nonzero_running in Hsum.
  destruct (runningPods pods) as [|pod l] eqn:Hrunning; [done|].
  assert (pod ∈ runningPods pods) as Hin by (rewrite Hrunning; left).
  apply list_elem_of_filter in Hin as [Hphase Hin].
  apply Exists_exists. eauto.
Qed.

Lemma GetCPUUtilization_success_only_if_witness :
  ∃ pods s rest,
    client_List hTwo ns sel = (pods, None)
    ∧ Exists (λ pod, Phase pod = PodRunning) pods
    ∧ allRequested pods
    ∧ requestSum pods ≠ 0%Z
    ∧ podAvgRequest pods ≠ 0%Z
    ∧ issued (GetCPUUtilization hTwo ns sel) =
        [cpuQuery ns (podListReg (map_range hTwo (eligibleNames pods)))]
    ∧ queryAPI_Query hTwo (cpuQuery ns (podListReg (map_range hTwo (eligibleNames pods))))
        = (ValVector (s :: rest), None)
    ∧ Some 100%Z =
        Some (Go.int64_quo (Go.int64_mul (podAvgConsumption pods (Value s)) 100)
                (podAvgRequest pods))
    ∧ TimeOfModel 17 = TimeOfModel (Timestamp s).
Proof.
  apply (GetCPUUtilization_success_only_if hTwo ns sel (Some 100%Z) (TimeOfModel 17)).
  reflexivity.
Defined.

(** X6. [GetCustomMetric] returns without an error only when the listing
    succeeded, the list is empty or has a pod that is not pending, and the
    one query sent was answered with a non-empty vector; the value is then
    never nil. *)
Theorem GetCustomMetric_success_only_if
    (h : PrometheusMetricsClient) (customMetricName namespace selector : string)
    (v : option float) (t : time_Time) :
  result (GetCustomMetric h customMetricName namespace selector) = Returned (v, t, None) →
  ∃ pods s rest,
    client_List h namespace selector = (pods, None)
    ∧ (pods = [] ∨ Exists (λ pod, Phase pod ≠ PodPending) pods)
    ∧ issued (GetCustomMetric h customMetricName namespace selector) =
        [customQuery customMetricName namespace (podListReg (Name <$> notPendingPods pods))]
    ∧ queryAPI_Query h
        (customQuery customMetricName namespace (podListReg (Name <$> notPendingPods pods)))
        = (ValVector (s :: rest), None)
    ∧ v = Some (PrimFloat.div (Value s)
                  (Go.float64_of_int (Z.of_nat (length (notPendingPods pods)))))
    ∧ t = TimeOfModel (Timestamp s).
Proof.
  intros Hres.
  destruct (client_List h namespace selector) as [pods [err|]] eqn:Hl.
  { rewrite (GetCustomMetric_list_error h namespace selector customMetricName pods err Hl)
      in Hres. discriminate. }
  assert (pods = [] ∨ Exists (λ pod, Phase pod ≠ PodPending) pods) as Hpods.
  { destruct pods as [|pod pods]; [by left|]. right.
    destruct (notPendingPods (pod :: pods)) as [|p l] eqn:Hnp.
    - rewrite (GetCustomMetric_all_pending h namespace selector customMetricName
                 (pod :: pods) Hl Hnp) in Hres by done. discriminate.
    - assert (p ∈ notPendingPods (pod :: pods)) as Hin by (rewrite Hnp; left).
      apply list_elem_of_filter in Hin as [Hphase Hin].
      apply Exists_exists. eauto. }
  assert (pods = [] ∨ notPendingPods pods ≠ []) as Hpods'.
  { destruct Hpods as [-> | Hex]; [by left|]. right. by apply filter_Exists_ne. }
  rewrite (GetCustomMetric_query h namespace selector customMetricName pods Hl Hpods')
    in Hres |- *.
  unfold result, customAnswer in Hres. simpl in Hres.
  destruct (queryAPI_Query h _) as [r [e|]] eqn:Hanswer; simpl in Hres; [discriminate|].
  destruct r as [|?|[|m0 ms]|?|? ?]; try discriminate.
  injection Hres as <- <-. exists pods, m0, ms. done.
Qed.

Lemma GetCustomMetric_success_only_if_witness :
  ∃ pods s rest,
    client_List hThree ns sel = (pods, None)
    ∧ (pods = [] ∨ Exists (λ pod, Phase pod ≠ PodPending) pods)
    ∧ issued (GetCustomMetric hThree metric ns sel) =
        [customQuery metric ns (podListReg (Name <$> notPendingPods pods))]
    ∧ queryAPI_Query hThree
        (customQuery metric ns (podListReg (Name <$> notPendingPods pods)))
        = (ValVector (s :: rest), None)
    ∧ Some 10%float =
        Some (PrimFloat.div (Value s)
                (Go.float64_of_int (Z.of_nat (length (notPendingPods pods)))))
    ∧ TimeOfModel 17 = TimeOfModel (Timestamp s).
Proof.
  apply (GetCustomMetric_success_only_if hThree metric ns sel (Some 10%float)
           (TimeOfModel 17)).
  reflexivity.
Defined.

(** *** When the program panics *)

(** The panics of a run of [GetCPUUtilization], both after its query was
    answered without an error. *)
Lemma GetCPUUtilization_panic_inv
    (h : PrometheusMetricsClient) (namespace selector : string) (p : panic) :
  result (GetCPUUtilization h namespace selector) = Panicked p ↔
  ∃ pods r,
    client_List h namespace selector = (pods, None)
    ∧ allRequested pods ∧ requestSum pods ≠ 0%Z
    ∧ queryAPI_Query h
        (cpuQuery namespace (podListReg (map_range h (eligibleNames pods)))) = (r, None)
    ∧ ((is_vector r = false ∧ p = PanicInterfaceConversion)
       ∨ (∃ s rest, r = ValVector (s :: rest)
                    ∧ podAvgRequest pods = 0%Z ∧ p = PanicDivideByZero)).
Proof.
  split.
  - intros Hres.
    destruct (GetCPUUtilization_cases h namespace selector)
      as [(e & Hrun & _) | (pods & Hl & Hall & Hsum & Hrun)]; rewrite Hrun in Hres.
    { discriminate. }
    unfold result, cpuAnswer, wrapped in Hres. simpl in Hres.
    destruct (queryAPI_Query h _) as [r [e|]] eqn:Hanswer; simpl in Hres; [discriminate|].
    exists pods, r. repeat split; try done.
    fold (podAvgRequest pods) in Hres.
    destruct r as [|?|[|m0 ms]|?|? ?]; try discriminate;
      try (left; split; [done | congruence]).
    right. exists m0, ms.
    destruct (podAvgRequest pods =? 0)%Z eqn:Havg; [|discriminate].
    apply Z.eqb_eq in Havg. split; [done|]. split; [done | congruence].
  - intros (pods & r & Hl & Hall & Hsum & Hanswer & Hcase).
    rewrite (GetCPUUtilization_query h namespace selector pods Hl Hall Hsum).
    unfold result, cpuAnswer. simpl. rewrite Hanswer. simpl.
    destruct Hcase as [[Hshape ->] | (s & rest & -> & Havg & ->)].
    + by destruct r as [|?|[|m0 ms]|?|? ?].
    + fold (podAvgRequest pods). by rewrite Havg.
Qed.

(** X7. [GetCPUUtilization] panics on its type assertion exactly when the
    listing succeeded, every container of every running pod has a request,
    the sum is not zero, and the query was answered without an error by a
    result that is not a vector. It panics on an integer division by zero
    exactly when, past the same guards, the query was answered without an
    error by a vector that is not empty and the average request is zero. *)
Theorem GetCPUUtilization_panics_iff
    (h : PrometheusMetricsClient) (namespace selector : string) :
  (result (GetCPUUtilization h namespace selector) = Panicked PanicInterfaceConversion ↔
   ∃ pods r,
     client_List h namespace selector = (pods, None)
     ∧ allRequested pods ∧ requestSum pods ≠ 0%Z
     ∧ queryAPI_Query h
         (cpuQuery namespace (podListReg (map_range h (eligibleNames pods)))) = (r, None)
     ∧ is_vector r = false)
  ∧ (result (GetCPUUtilization h namespace selector) = Panicked PanicDivideByZero ↔
     ∃ pods s rest,
       client_List h namespace selector = (pods, None)
       ∧ allRequested pods ∧ requestSum pods ≠ 0%Z
       ∧ queryAPI_Query h
           (cpuQuery namespace (podListReg (map_range h (eligibleNames pods))))
           = (ValVector (s :: rest), None)
       ∧ podAvgRequest pods = 0%Z).
Proof.
  split; split.
  - intros (pods & r & Hl & Hall & Hsum & Hq & [[Hv _] | (s & rest & _ & _ & Hp)])
      %GetCPUUtilization_panic_inv; [|discriminate Hp].
    by exists pods, r.
  - intros (pods & r & Hl & Hall & Hsum & Hq & Hv).
    apply GetCPUUtilization_panic_inv. exists pods, r.
    split; [done|]. split; [done|]. split; [done|]. split; [done|]. by left.
  - intros (pods & r & Hl & Hall & Hsum & Hq & [[_ Hp] | (s & rest & -> & Havg & _)])
      %GetCPUUtilization_panic_inv; [discriminate Hp|].
    by exists pods, s, rest.
  - intros (pods & s & rest & Hl & Hall & Hsum & Hq & Havg).
    apply GetCPUUtilization_panic_inv. exists pods, (ValVector (s :: rest)).
    split; [done|]. split; [done|]. split; [done|]. split; [done|].
    right. by exists s, rest.
Qed.

Lemma GetCPUUtilization_panics_iff_witness :
  result (GetCPUUtilization hScalar ns sel) = Panicked PanicInterfaceConversion
  ∧ result (GetCPUUtilization hSmall ns sel) = Panicked PanicDivideByZero.
Proof.
  split.
  - apply (GetCPUUtilization_panics_iff hScalar ns sel).
    exists twoRunning, (ValScalar (Fixture.sample 1 17)).
    split; [reflexivity|]. split; [by_evaluation|]. split; [vm_compute; discriminate|].
    by split.
  - apply (GetCPUUtilization_panics_iff hSmall ns sel).
    exists smallRequests, (Fixture.sample v04 17), [].
    split; [reflexivity|]. split; [by_evaluation|]. split; [vm_compute; discriminate|].
    by split.
Defined.

(** The panic of a run of [GetCustomMetric], after its query was answered
    without an error. *)
Lemma GetCustomMetric_panic_inv
    (h : PrometheusMetricsClient) (customMetricName namespace selector : string)
    (p : panic) :
  result (GetCustomMetric h customMetricName namespace selector) = Panicked p ↔
  p = PanicInterfaceConversion
  ∧ ∃ pods r,
      client_List h namespace selector = (pods, None)
      ∧ (pods = [] ∨ Exists (λ pod, Phase pod ≠ PodPending) pods)
      ∧ queryAPI_Query h
          (customQuery customMetricName namespace
             (podListReg (Name <$> notPendingPods pods))) = (r, None)
      ∧ is_vector r = false.
Proof.
  split.
  - intros Hres.
    destruct (client_List h namespace selector) as [pods [err|]] eqn:Hl.
    { rewrite (GetCustomMetric_list_error h namespace selector customMetricName pods err Hl)
        in Hres. discriminate. }
    assert (pods = [] ∨ Exists (λ pod, Phase pod ≠ PodPending) pods) as Hpods.
    { destruct pods as [|pod pods]; [by left|]. right.
      destruct (notPendingPods (pod :: pods)) as [|q l] eqn:Hnp.
      - rewrite (GetCustomMetric_all_pending h namespace selector customMetricName
                   (pod :: pods) Hl Hnp) in Hres by done. discriminate.
      - assert (q ∈ notPendingPods (pod :: pods)) as Hin by (rewrite Hnp; left).
        apply list_elem_of_filter in Hin as [Hphase Hin].
        apply Exists_exists. eauto. }
    assert (pods = [] ∨ notPendingPods pods ≠ []) as Hpods'.
    { destruct Hpods as [-> | Hex]; [by left|]. right. by apply filter_Exists_ne. }
    rewrite (GetCustomMetric_query h namespace selector customMetricName pods Hl Hpods')
      in Hres.
    unfold result, customAnswer in Hres. simpl in Hres.
    destruct (queryAPI_Query h _) as [r [e|]] eqn:Hanswer; simpl in Hres; [discriminate|].
    destruct r as [|?|[|m0 ms]|?|? ?]; try discriminate;
      (split; [congruence|]); eexists pods, _; repeat split; done.
  - intros (-> & pods & r & Hl & Hpods & Hanswer & Hshape).
    assert (pods = [] ∨ notPendingPods pods ≠ []) as Hpods'.
    { destruct Hpods as [-> | Hex]; [by left|]. right. by apply filter_Exists_ne. }
    rewrite (GetCustomMetric_query h namespace selector customMetricName pods Hl Hpods').
    unfold result, customAnswer. simpl. rewrite Hanswer. simpl.
    by destruct r as [|?|[|m0 ms]|?|? ?].
Qed.

(** X8. [GetCustomMetric] panics on its type assertion exactly when the
    listing succeeded, the list is empty or has a pod that is not pending,
    and the query was answered without an error by a result that is not a
    vector. It never panics on a division by zero, also with no pod to
    divide by: its division is one of [float64]. *)
Theorem GetCustomMetric_panics_iff
    (h : PrometheusMetricsClient) (customMetricName namespace selector : string) :
  (result (GetCustomMetric h customMetricName namespace selector)
     = Panicked PanicInterfaceConversion ↔
   ∃ pods r,
     client_List h namespace selector = (pods, None)
     ∧ (pods = [] ∨ Exists (λ pod, Phase pod ≠ PodPending) pods)
     ∧ queryAPI_Query h
         (customQuery customMetricName namespace
            (podListReg (Name <$> notPendingPods pods))) = (r, None)
     ∧ is_vector r = false)
  ∧ result (GetCustomMetric h customMetricName namespace selector)
      ≠ Panicked PanicDivideByZero.
Proof.
  split; [split|].
  - by intros [_ ?]%GetCustomMetric_panic_inv.
  - intros Hex. by apply GetCustomMetric_panic_inv.
  - by intros [? _]%GetCustomMetric_panic_inv.
Qed.

Lemma GetCustomMetric_panics_iff_witness :
  result (GetCustomMetric hMatrix metric ns sel) = Panicked PanicInterfaceConversion
  ∧ result (GetCustomMetric hNoPodsSample metric ns sel)
      = Returned (Some infinity, TimeOfModel 17, None).
Proof.
  split.
  - apply (GetCustomMetric_panics_iff hMatrix metric ns sel).
    exists twoRunning, (ValMatrix []).
    split; [reflexivity|]. split; [|by split].
    right. apply Exists_cons_hd. discriminate.
  - vm_compute. reflexivity.
Defined.

(** *** Sums, counts and the average request *)

Section Counts.

Local Open Scope Z_scope.

Lemma size_list_to_set_le (l : list string) :
  (size (list_to_set l : gset string) ≤ length l)%nat.
Proof.
  induction l as [|x l IH]; [done|].
  rewrite list_to_set_cons, size_union_alt, size_singleton. simpl.
  assert (size (list_to_set l ∖ {[x]} : gset string) ≤ size (list_to_set l : gset string))%nat
    by (apply subseteq_size; intros y Hy; apply elem_of_difference in Hy; tauto).
  lia.
Qed.

Lemma Zsum_perm l1 l2 : l1 ≡ₚ l2 → Zsum l1 = Zsum l2.
Proof.
  induction 1 as [|x l1 l2 _ IH|x y l|l1 l2 l3 _ IH1 _ IH2]; simpl; [done|lia|lia|congruence].
Qed.

Lemma Zsum_nonneg l : Forall (λ r, 0 ≤ r) l → 0 ≤ Zsum l.
Proof. induction 1; simpl; lia. Qed.

Lemma Zsum_zero_iff l : Forall (λ r, 0 ≤ r) l → (Zsum l = 0 ↔ Forall (λ r, r = 0) l).
Proof.
  induction 1 as [|r l Hr Hl IH]; simpl.
  - split; [constructor | done].
  - pose proof (Zsum_nonneg l Hl). rewrite Forall_cons, <- IH. lia.
Qed.

(** The sum of the requests of pods that each request at least 1m is at
    least their number. *)
Lemma requestTotal_ge_running pods :
  Forall (λ pod, 1 ≤ Zsum (omap cpuRequest (Containers pod))) (runningPods pods) →
  Z.of_nat (length (runningPods pods)) ≤ requestTotal pods.
Proof.
  unfold requestTotal, runningRequests.
  induction 1 as [|pod l Hpod Hl IH]; [done|].
  rewrite bind_cons, Zsum_app. simpl length. lia.
Qed.

Lemma eligibleNames_size_le pods :
  (size (eligibleNames pods) ≤ length (runningPods pods))%nat.
Proof.
  unfold eligibleNames. etrans; [apply size_list_to_set_le|]. by rewrite length_fmap.
Qed.

(** Past the guards, with a sum that is positive and fits [int64], the
    average request is zero exactly when the sum is below the number of
    names. *)
Lemma podAvgRequest_zero_iff pods :
  0 < requestTotal pods ≤ Go.MaxInt64 →
  podAvgRequest pods = 0 ↔ requestTotal pods < Z.of_nat (size (eligibleNames pods)).
Proof.
  intros Htotal.
  assert (requestSum pods = requestTotal pods) as Hsum.
  { apply requestSum_exact. unfold Go.in_int64, Go.MinInt64, Go.MaxInt64 in *. lia. }
  assert (size (eligibleNames pods) ≠ 0%nat) as Hsize.
  { rewrite eligibleNames_size_0. apply requestSum_nonzero_running. lia. }
  unfold podAvgRequest, avgRequestMilli, Go.int64_quo. rewrite Hsum.
  rewrite Z.quot_div_nonneg by lia.
  assert (0 ≤ requestTotal pods / Z.of_nat (size (eligibleNames pods)) ≤ requestTotal pods).
  { split; [apply Z.div_pos; lia|]. apply Z.div_le_upper_bound; nia. }
  rewrite wrap64_small
    by (unfold Go.in_int64, Go.MinInt64, Go.MaxInt64 in *; lia).
  rewrite Z.div_small_iff by lia. lia.
Qed.

(** A panic on a division of [GetCPUUtilization] is the division by a zero
    average, past the guards. *)
Lemma cpu_divide_panic_inv h namespace selector :
  result (GetCPUUtilization h namespace selector) = Panicked PanicDivideByZero →
  ∃ pods, client_List h namespace selector = (pods, None)
          ∧ allRequested pods ∧ requestSum pods ≠ 0 ∧ podAvgRequest pods = 0.
Proof.
  intros Hres.
  destruct (GetCPUUtilization_cases h namespace selector)
    as [(e & Hrun & _) | (pods & Hl & Hall & Hsum & Hrun)]; rewrite Hrun in Hres.
  { discriminate. }
  exists pods. repeat split; try done.
  unfold result, cpuAnswer, wrapped in Hres. simpl in Hres.
  destruct (queryAPI_Query h _) as [r [e|]]; simpl in Hres; [discriminate|].
  destruct r as [|?|[|m0 ms]|?|? ?]; try discriminate.
  fold (podAvgRequest pods) in Hres.
  destruct (podAvgRequest pods =? 0) eqn:Havg; [by apply Z.eqb_eq|discriminate].
Qed.

End Counts.

(** X9. With every container of every running pod requesting CPU, a sum that is
    positive and fits [int64], and a non-empty vector for an answer,
    [GetCPUUtilization] panics on the division exactly when the sum is
    smaller than the number of names of running pods, and returns a
    percentage otherwise. *)
Theorem zero_average_panics_iff
    (h : PrometheusMetricsClient) (namespace selector : string)
    (pods : list Pod) (s : Sample) (rest : list Sample) :
  client_List h namespace selector = (pods, None) →
  allRequested pods →
  (0 < requestTotal pods ≤ Go.MaxInt64)%Z →
  queryAPI_Query h (cpuQuery namespace (podListReg (map_range h (eligibleNames pods))))
    = (ValVector (s :: rest), None) →
  (result (GetCPUUtilization h namespace selector) = Panicked PanicDivideByZero
   ↔ (requestTotal pods < Z.of_nat (size (eligibleNames pods)))%Z)
  ∧ ((Z.of_nat (size (eligibleNames pods)) ≤ requestTotal pods)%Z →
     ∃ u, result (GetCPUUtilization h namespace selector) =
            Returned (Some u, TimeOfModel (Timestamp s), None)).
Proof.
  intros Hl Hall Htotal Hanswer.
  assert (requestSum pods ≠ 0%Z) as Hsum.
  { rewrite requestSum_exact; [lia|].
    unfold Go.in_int64, Go.MinInt64, Go.MaxInt64 in *. lia. }
  rewrite (GetCPUUtilization_query h namespace selector pods Hl Hall Hsum).
  unfold result, cpuAnswer. simpl. rewrite Hanswer. simpl.
  fold (podAvgRequest pods). rewrite <- (podAvgRequest_zero_iff pods Htotal).
  destruct (podAvgRequest pods =? 0)%Z eqn:Havg.
  - apply Z.eqb_eq in Havg. split; [done|]. intros Hle.
    apply (podAvgRequest_zero_iff pods Htotal) in Havg. lia.
  - apply Z.eqb_neq in Havg. split; [|by eexists]. split; [discriminate | done].
Qed.

Lemma zero_average_panics_iff_witness :
  result (GetCPUUtilization hSmall ns sel) = Panicked PanicDivideByZero.
Proof.
  destruct (zero_average_panics_iff hSmall ns sel smallRequests (Fixture.sample v04 17) [])
    as [Hiff _].
  - reflexivity.
  - by_evaluation.
  - vm_compute. split; [reflexivity | discriminate].
  - reflexivity.
  - apply Hiff. vm_compute. reflexivity.
Defined.

(** X10. When every running pod requests at least 1m over its containers and the
    sum fits [int64], [GetCPUUtilization] does not panic on a division,
    whatever the backend answers. *)
Theorem no_division_panic_with_requests
    (h : PrometheusMetricsClient) (namespace selector : string) (pods : list Pod) :
  client_List h namespace selector = (pods, None) →
  Forall (λ pod, (1 ≤ Zsum (omap cpuRequest (Containers pod)))%Z) (runningPods pods) →
  (requestTotal pods ≤ Go.MaxInt64)%Z →
  result (GetCPUUtilization h namespace selector) ≠ Panicked PanicDivideByZero.
Proof.
  intros Hl Hone Hmax Hres.
  apply cpu_divide_panic_inv in Hres as (pods' & Hl' & Hall & Hsum & Havg).
  rewrite Hl in Hl'. injection Hl' as <-.
  pose proof (requestTotal_ge_running pods Hone) as Hge.
  pose proof (eligibleNames_size_le pods) as Hle.
  assert (runningPods pods ≠ []) as Hrun by by apply requestSum_nonzero_running.
  assert (0 < length (runningPods pods)) by (destruct (runningPods pods); [done | simpl; lia]).
  apply podAvgRequest_zero_iff in Havg; lia.
Qed.

Lemma no_division_panic_with_requests_witness :
  requestTotal twoRunning = 400%Z
  ∧ result (GetCPUUtilization hTwo ns sel) ≠ Panicked PanicDivideByZero.
Proof.
  split; [reflexivity|].
  apply (no_division_panic_with_requests hTwo ns sel twoRunning).
  - reflexivity.
  - repeat constructor; vm_compute; discriminate.
  - vm_compute. discriminate.
Defined.

(** X11. With non-negative operands that do not overflow, the percentage that
    [GetCPUUtilization] returns is not negative, is the quotient of 100 times
    the average consumption by the average request rounded down, and
    reaches 100 exactly when the average consumption reaches the average
    request. *)
Theorem utilization_bounds
    (h : PrometheusMetricsClient) (namespace selector : string)
    (pods : list Pod) (s : Sample) (rest : list Sample) :
  client_List h namespace selector = (pods, None) →
  allRequested pods →
  (0 ≤ podAvgConsumption pods (Value s) * 100 ≤ Go.MaxInt64)%Z →
  (0 < podAvgRequest pods)%Z →
  queryAPI_Query h (cpuQuery namespace (podListReg (map_range h (eligibleNames pods))))
    = (ValVector (s :: rest), None) →
  ∃ u, result (GetCPUUtilization h namespace selector) =
         Returned (Some u, TimeOfModel (Timestamp s), None)
       ∧ (0 ≤ u)%Z
       ∧ (u * podAvgRequest pods ≤ podAvgConsumption pods (Value s) * 100
          < (u + 1) * podAvgRequest pods)%Z
       ∧ ((100 ≤ u)%Z ↔ (podAvgRequest pods ≤ podAvgConsumption pods (Value s))%Z).
Proof.
  intros Hl Hall Hcons Hreq Hanswer.
  assert (requestSum pods ≠ 0%Z) as Hsum.
  { intros Hz. unfold podAvgRequest in Hreq. rewrite Hz, avgRequestMilli_zero_sum in Hreq.
    lia. }
  exists (Z.div (podAvgConsumption pods (Value s) * 100) (podAvgRequest pods)).
  split.
  { rewrite (GetCPUUtilization_query h namespace selector pods Hl Hall Hsum).
    unfold result, cpuAnswer. simpl. rewrite Hanswer. simpl.
    fold (podAvgRequest pods). fold (podAvgConsumption pods (Value s)).
    rewrite (proj2 (Z.eqb_neq _ 0)) by lia.
    unfold Go.int64_mul.
    rewrite wrap64_small by (unfold Go.in_int64, Go.MinInt64, Go.MaxInt64 in *; lia).
    by rewrite int64_quo_floor. }
  pose proof (Z.mul_div_le (podAvgConsumption pods (Value s) * 100) (podAvgRequest pods) Hreq).
  pose proof (Z.mul_succ_div_gt (podAvgConsumption pods (Value s) * 100)
                (podAvgRequest pods) Hreq).
  pose proof (Z.div_pos (podAvgConsumption pods (Value s) * 100) (podAvgRequest pods)).
  split; [lia|]. split; [lia|]. split; nia.
Qed.

Lemma utilization_bounds_witness :
  ∃ u, result (GetCPUUtilization hTwo ns sel) = Returned (Some u, TimeOfModel 17, None)
       ∧ (0 ≤ u)%Z
       ∧ (u * podAvgRequest twoRunning ≤ podAvgConsumption twoRunning v04 * 100
          < (u + 1) * podAvgRequest twoRunning)%Z
       ∧ ((100 ≤ u)%Z ↔ (podAvgRequest twoRunning ≤ podAvgConsumption twoRunning v04)%Z).
Proof.
  apply (utilization_bounds hTwo ns sel twoRunning (Fixture.sample v04 17) []).
  - reflexivity.
  - by_evaluation.
  - vm_compute. split; discriminate.
  - reflexivity.
  - reflexivity.
Defined.

(** X12. With requests that are not negative and a sum that fits [int64], a
    request of zero counts like a missing one: on a list that is empty or has
    a running pod, [GetCPUUtilization] returns the wrapped "some pods do not
    have request for cpu" error exactly when a container of a running pod has
    no request or every request of the running pods is zero. *)
Theorem zero_requests_fail_like_missing
    (h : PrometheusMetricsClient) (namespace selector : string) (pods : list Pod) :
  client_List h namespace selector = (pods, None) →
  pods = [] ∨ Exists (λ pod, Phase pod = PodRunning) pods →
  Forall (λ r, (0 ≤ r)%Z) (runningRequests pods) →
  (requestTotal pods ≤ Go.MaxInt64)%Z →
  result (GetCPUUtilization h namespace selector) =
    Returned (None, TimeZero, Some (ErrCpuConsumptionAndRequest ErrNoCpuRequest))
  ↔ ¬ allRequested pods ∨ Forall (λ r, r = 0%Z) (runningRequests pods).
Proof.
  intros Hl Hpods Hnonneg Hmax.
  assert (pods = [] ∨ runningPods pods ≠ []) as Hpods'.
  { destruct Hpods as [-> | Hex]; [by left|]. right. by apply filter_Exists_ne. }
  assert (requestSum pods = 0%Z ↔ Forall (λ r, r = 0%Z) (runningRequests pods)) as Hzero.
  { pose proof (Zsum_nonneg _ Hnonneg).
    rewrite requestSum_exact
      by (unfold Go.in_int64, Go.MinInt64, Go.MaxInt64, requestTotal in *; lia).
    by apply Zsum_zero_iff. }
  rewrite <- Hzero. split.
  - intros Hres.
    destruct (decide (allRequested pods)) as [Hall|]; [|by left]. right.
    destruct (decide (requestSum pods = 0%Z)) as [|Hsum]; [done|]. exfalso.
    rewrite (GetCPUUtilization_query h namespace selector pods Hl Hall Hsum) in Hres.
    unfold result, cpuAnswer, wrapped in Hres. simpl in Hres.
    destruct (queryAPI_Query h _) as [r [err|]]; simpl in Hres; [discriminate|].
    destruct r as [|?|[|m0 ms]|?|? ?]; try discriminate.
    destruct (avgRequestMilli _ _ =? 0)%Z; discriminate.
  - intros Hreq.
    by rewrite (GetCPUUtilization_no_request h namespace selector pods Hl Hpods' Hreq).
Qed.

Lemma zero_requests_fail_like_missing_witness :
  requestTotal zeroRequests = 0%Z
  ∧ result (GetCPUUtilization hZero ns sel) =
      Returned (None, TimeZero, Some (ErrCpuConsumptionAndRequest ErrNoCpuRequest)).
Proof.
  split; [reflexivity|].
  apply (zero_requests_fail_like_missing hZero ns sel zeroRequests).
  - reflexivity.
  - right. apply Exists_cons_hd. reflexivity.
  - repeat constructor; discriminate.
  - vm_compute. discriminate.
  - right. repeat constructor.
Defined.

(** *** The order and the grouping of the listed pods *)

Section Order.

Lemma runningRequests_perm pods pods' :
  pods ≡ₚ pods' → runningRequests pods ≡ₚ runningRequests pods'.
Proof. intros Hp. unfold runningRequests, runningPods. by rewrite Hp. Qed.

Lemma requestSum_perm pods pods' : pods ≡ₚ pods' → requestSum pods = requestSum pods'.
Proof.
  intros Hp. unfold requestSum, requestTotal.
  by rewrite (Zsum_perm _ _ (runningRequests_perm _ _ Hp)).
Qed.

Lemma eligibleNames_perm pods pods' :
  pods ≡ₚ pods' → eligibleNames pods = eligibleNames pods'.
Proof. intros Hp. unfold eligibleNames, runningPods. by rewrite Hp. Qed.

Lemma allRequested_perm pods pods' :
  pods ≡ₚ pods' → allRequested pods ↔ allRequested pods'.
Proof. intros Hp. unfold allRequested, runningPods. by rewrite Hp. Qed.

Lemma runningPods_nil_perm pods pods' :
  pods ≡ₚ pods' → runningPods pods = [] → runningPods pods' = [].
Proof.
  intros Hp Hnil. apply Permutation_nil_r.
  unfold runningPods in *. by rewrite <- Hp, Hnil.
Qed.

Lemma size_list_to_set_NoDup (l : list string) :
  size (list_to_set l : gset string) = length l → NoDup l.
Proof.
  induction l as [|x l IH]; [constructor|].
  rewrite list_to_set_cons. simpl. intros Hsize.
  pose proof (size_list_to_set_le l) as Hle.
  destruct (decide (x ∈ l)) as [Hin|Hnotin].
  - exfalso.
    assert ({[x]} ∪ list_to_set l = (list_to_set l : gset string)) as Heq.
    { apply leibniz_equiv. intros y. rewrite elem_of_union, elem_of_singleton.
      rewrite elem_of_list_to_set. split; [intros [-> | ?]; done | by right]. }
    rewrite Heq in Hsize. lia.
  - apply NoDup_cons. split; [done|]. apply IH.
    rewrite size_union in Hsize.
    + rewrite size_singleton in Hsize. lia.
    + intros y Hy1 Hy2. apply elem_of_singleton in Hy1 as ->.
      by apply elem_of_list_to_set in Hy2.
Qed.

Lemma running_le_notPending pods :
  length (runningPods pods) ≤ length (notPendingPods pods).
Proof.
  unfold runningPods, notPendingPods.
  induction pods as [|pod pods IH]; [done|].
  destruct (decide (Phase pod = PodRunning)) as [Hrun|Hnot].
  - rewrite !filter_cons_True by (done || congruence). simpl. lia.
  - rewrite (filter_cons_False (λ pod, Phase pod = PodRunning)) by done.
    destruct (decide (Phase pod ≠ PodPending)).
    + rewrite filter_cons_True by done. simpl. lia.
    + by rewrite filter_cons_False by done.
Qed.

End Order.

(** X13. [GetCPUUtilization] does not depend on the order in which the pods are
    listed, each run visiting its map of names in an order of its own. For
    two clients whose listings are permutations of one another the loop
    computes the same set of names, the same sum with wrap-around and the
    same missing flag; a run that ends before its query is the same run for
    both; a query that is sent is built over the same set of names, in the
    order of the run that sends it; and when the backend answers the query
    of each run with a vector of the same first sample, both runs have the
    same result. *)
Theorem GetCPUUtilization_order_independent
    (h h' : PrometheusMetricsClient) (namespace selector : string) (pods pods' : list Pod) :
  pods ≡ₚ pods' →
  client_List h namespace selector = (pods, None) →
  client_List h' namespace selector = (pods', None) →
  foldl addPod (∅, 0%Z, false) pods' = foldl addPod (∅, 0%Z, false) pods
  ∧ (issued (GetCPUUtilization h namespace selector) = [] →
     GetCPUUtilization h' namespace selector = GetCPUUtilization h namespace selector)
  ∧ (∀ q, q ∈ issued (GetCPUUtilization h' namespace selector) →
          issued (GetCPUUtilization h namespace selector) =
            [cpuQuery namespace (podListReg (map_range h (eligibleNames pods)))]
          ∧ q = cpuQuery namespace (podListReg (map_range h' (eligibleNames pods))))
  ∧ (∀ s rest rest',
       queryAPI_Query h (cpuQuery namespace (podListReg (map_range h (eligibleNames pods))))
         = (ValVector (s :: rest), None) →
       queryAPI_Query h' (cpuQuery namespace (podListReg (map_range h' (eligibleNames pods))))
         = (ValVector (s :: rest'), None) →
       result (GetCPUUtilization h namespace selector) =
         result (GetCPUUtilization h' namespace selector)).
Proof.
  intros Hp Hl Hl'.
  pose proof (eligibleNames_perm pods pods' Hp) as Hnames.
  pose proof (requestSum_perm pods pods' Hp) as Hsums.
  pose proof (allRequested_perm pods pods' Hp) as Halls.
  assert ((allRequested pods ∧ requestSum pods ≠ 0%Z
           ∧ GetCPUUtilization h namespace selector =
               ([cpuQuery namespace (podListReg (map_range h (eligibleNames pods)))],
                cpuAnswer (podListReg (map_range h (eligibleNames pods)))
                  (size (eligibleNames pods)) (requestSum pods)
                  (queryAPI_Query h
                     (cpuQuery namespace (podListReg (map_range h (eligibleNames pods))))))
           ∧ GetCPUUtilization h' namespace selector =
               ([cpuQuery namespace (podListReg (map_range h' (eligibleNames pods)))],
                cpuAnswer (podListReg (map_range h' (eligibleNames pods)))
                  (size (eligibleNames pods)) (requestSum pods)
                  (queryAPI_Query h'
                     (cpuQuery namespace (podListReg (map_range h' (eligibleNames pods)))))))
          ∨ (∃ e, GetCPUUtilization h namespace selector = ([], Returned (wrapped e))
                  ∧ GetCPUUtilization h' namespace selector = ([], Returned (wrapped e))))
    as Hcases.
  { destruct (decide (allRequested pods ∧ requestSum pods ≠ 0%Z)) as [[Hall Hsum]|Hno].
    - left. split; [done|]. split; [done|]. split.
      + apply (GetCPUUtilization_query h namespace selector pods Hl Hall Hsum).
      + rewrite Hnames, Hsums.
        apply (GetCPUUtilization_query h' namespace selector pods' Hl').
        * by apply Halls.
        * by rewrite <- Hsums.
    - right.
      assert (¬ allRequested pods ∨ requestSum pods = 0%Z) as Hreq.
      { destruct (decide (allRequested pods)); [|by left].
        right. destruct (decide (requestSum pods = 0%Z)); [done|]. tauto. }
      assert (¬ allRequested pods' ∨ requestSum pods' = 0%Z) as Hreq'
        by (by rewrite <- Halls, <- Hsums).
      destruct pods as [|pod l].
      { apply Permutation_nil_l in Hp as <-. exists ErrNoCpuRequest. split.
        - apply (GetCPUUtilization_no_request h namespace selector [] Hl); [by left|done].
        - apply (GetCPUUtilization_no_request h' namespace selector [] Hl'); [by left|done]. }
      destruct (runningPods (pod :: l)) as [|r rs] eqn:Hrun.
      + exists ErrNoRunningPods. split.
        * by apply (GetCPUUtilization_no_running h namespace selector (pod :: l) Hl Hrun).
        * apply (GetCPUUtilization_no_running h' namespace selector pods' Hl').
          -- by apply (runningPods_nil_perm (pod :: l)).
          -- intros ->. by apply Permutation_nil_r in Hp.
      + exists ErrNoCpuRequest. split.
        * apply (GetCPUUtilization_no_request h namespace selector (pod :: l) Hl);
            [right; by rewrite Hrun | done].
        * apply (GetCPUUtilization_no_request h' namespace selector pods' Hl'); [|done].
          right. intros Hnil.
          apply (runningPods_nil_perm pods' (pod :: l)) in Hnil; [|done].
          by rewrite Hrun in Hnil. }
  split; [|split; [|split]].
  - rewrite !aggregate_spec, <- Hnames, <- Hsums.
    do 2 f_equal. apply bool_decide_ext. by rewrite Halls.
  - destruct Hcases as [(_ & _ & Hrun & _) | (e & Hrun & Hrun')];
      rewrite Hrun; [done|]. by rewrite Hrun'.
  - intros q. destruct Hcases as [(_ & _ & Hrun & Hrun') | (e & Hrun & Hrun')];
      rewrite Hrun, Hrun'; simpl.
    + by intros ->%list_elem_of_singleton.
    + by intros Hin%elem_of_nil.
  - intros s rest rest' Hanswer Hanswer'.
    destruct Hcases as [(_ & _ & Hrun & Hrun') | (e & Hrun & Hrun')];
      rewrite Hrun, Hrun'; [|done].
    unfold result, cpuAnswer. simpl. by rewrite Hanswer, Hanswer'.
Qed.

Lemma GetCPUUtilization_order_independent_witness :
  issued (GetCPUUtilization hTwo ns sel) = [cpuQuery ns "(a|b|).*"]
  ∧ issued (GetCPUUtilization hTwoReversed ns sel) = [cpuQuery ns "(b|a|).*"]
  ∧ result (GetCPUUtilization hTwo ns sel) = result (GetCPUUtilization hTwoReversed ns sel).
Proof.
  split; [vm_compute; reflexivity|]. split; [vm_compute; reflexivity|].
  destruct (GetCPUUtilization_order_independent hTwo hTwoReversed ns sel
              twoRunning (reverse twoRunning)) as (_ & _ & _ & Hresult).
  - apply Permutation_swap.
  - reflexivity.
  - reflexivity.
  - apply (Hresult (Fixture.sample v04 17) [] [Fixture.sample 1 18]); reflexivity.
Defined.

(** X14. The divisor of [GetCpuConsumptionAndRequestInMillis], the number of
    names of running pods, is never more than the divisor of
    [GetCustomMetric], the number of pods that are not pending, on the same
    list; it is the number of running pods exactly when their names are
    pairwise distinct. The divisor of [GetCustomMetric] does not depend on
    the order of the list. *)
Theorem divisors_compared (pods : list Pod) :
  size (foldl addPod (∅, 0%Z, false) pods).1.1 ≤ length (runningPods pods)
  ∧ length (runningPods pods) ≤ length (foldl appendNotPending [] pods)
  ∧ length (foldl appendNotPending [] pods) ≤ length pods
  ∧ (size (foldl addPod (∅, 0%Z, false) pods).1.1 = length (runningPods pods)
     ↔ NoDup (Name <$> runningPods pods))
  ∧ (∀ pods', pods ≡ₚ pods' →
       length (foldl appendNotPending [] pods) = length (foldl appendNotPending [] pods')).
Proof.
  rewrite aggregate_spec, collect_spec, length_fmap. simpl.
  split; [apply eligibleNames_size_le|].
  split; [apply running_le_notPending|].
  split; [apply length_filter|].
  split.
  - split; [|apply eligibleNames_size_NoDup].
    unfold eligibleNames. intros Hsize. apply size_list_to_set_NoDup.
    by rewrite length_fmap.
  - intros pods' Hp. rewrite collect_spec, length_fmap.
    unfold notPendingPods. by rewrite Hp.
Qed.

Lemma divisors_compared_witness :
  size (foldl addPod (∅, 0%Z, false) sameName).1.1 = 1
  ∧ length (runningPods sameName) = 2
  ∧ ¬ NoDup (Name <$> runningPods sameName).
Proof.
  split; [reflexivity|]. split; [reflexivity|].
  destruct (divisors_compared sameName) as (_ & _ & _ & Hiff & _).
  intros Hnodup. apply Hiff in Hnodup. vm_compute in Hnodup. discriminate.
Defined.

(** X15. When [GetCustomMetric] reports that no pod is running, so does
    [GetCPUUtilization] on the same listing, without a query: a listing that
    the filter of the custom metrics empties is emptied by the filter of the
    CPU utilization too. *)
Theorem custom_no_pods_implies_cpu_no_pods
    (h : PrometheusMetricsClient) (customMetricName namespace selector : string) :
  result (GetCustomMetric h customMetricName namespace selector) =
    Returned (None, TimeZero, Some ErrNoRunningPods) →
  GetCPUUtilization h namespace selector =
    ([], Returned (None, TimeZero, Some (ErrCpuConsumptionAndRequest ErrNoRunningPods))).
Proof.
  intros Hres.
  destruct (client_List h namespace selector) as [pods [err|]] eqn:Hl.
  { rewrite (GetCustomMetric_list_error h namespace selector customMetricName pods err Hl)
      in Hres. discriminate. }
  destruct pods as [|pod l].
  { rewrite (GetCustomMetric_query h namespace selector customMetricName [] Hl) in Hres
      by auto.
    unfold result, customAnswer in Hres. simpl in Hres.
    destruct (queryAPI_Query h _) as [r [e|]]; simpl in Hres; [discriminate|].
    destruct r as [|?|[|m0 ms]|?|? ?]; discriminate. }
  destruct (notPendingPods (pod :: l)) as [|r rs] eqn:Hnp.
  - apply (GetCPUUtilization_no_running h namespace selector (pod :: l)); [done| |done].
    pose proof (running_le_notPending (pod :: l)) as Hle. rewrite Hnp in Hle.
    destruct (runningPods (pod :: l)); [done | simpl in Hle; lia].
  - rewrite (GetCustomMetric_query h namespace selector customMetricName (pod :: l) Hl)
      in Hres by (right; by rewrite Hnp).
    unfold result, customAnswer in Hres. simpl in Hres.
    destruct (queryAPI_Query h _) as [res [e|]]; simpl in Hres; [discriminate|].
    destruct res as [|?|[|m0 ms]|?|? ?]; discriminate.
Qed.

Lemma custom_no_pods_implies_cpu_no_pods_witness :
  GetCPUUtilization hPending ns sel =
    ([], Returned (None, TimeZero, Some (ErrCpuConsumptionAndRequest ErrNoRunningPods)))
  ∧ result (GetCustomMetric hPending metric ns sel) =
      Returned (None, TimeZero, Some ErrNoRunningPods).
Proof.
  split; [|reflexivity].
  apply (custom_no_pods_implies_cpu_no_pods hPending metric ns sel). reflexivity.
Defined.

(** X16. Both loops go over a list made of two parts as over the parts: the
    names of the parts are united, their sums are added as [int64], with
    wrap-around, and their missing flags are joined; the names that
    [GetCustomMetric] collects are those of the first part followed by those
    of the second. *)
Theorem loops_over_concatenation (pods1 pods2 : list Pod) :
  foldl addPod (∅, 0%Z, false) (pods1 ++ pods2) =
    ((foldl addPod (∅, 0%Z, false) pods1).1.1 ∪ (foldl addPod (∅, 0%Z, false) pods2).1.1,
     Go.int64_add (foldl addPod (∅, 0%Z, false) pods1).1.2
       (foldl addPod (∅, 0%Z, false) pods2).1.2,
     (foldl addPod (∅, 0%Z, false) pods1).2 || (foldl addPod (∅, 0%Z, false) pods2).2)
  ∧ foldl appendNotPending [] (pods1 ++ pods2) =
      foldl appendNotPending [] pods1 ++ foldl appendNotPending [] pods2.
Proof.
  split.
  - rewrite !aggregate_spec. simpl.
    unfold eligibleNames, requestSum, requestTotal, runningRequests, allRequested,
      runningPods.
    rewrite filter_app, fmap_app, list_to_set_app_L, bind_app, Zsum_app.
    f_equal; [f_equal|].
    + unfold Go.int64_add. rewrite wrap64_add_l.
      rewrite (Z.add_comm _ (Go.wrap64 _)), wrap64_add_l. f_equal. lia.
    + repeat case_bool_decide; simpl; try done; exfalso; rewrite Forall_app in *; tauto.
  - rewrite !collect_spec. unfold notPendingPods. by rewrite filter_app, fmap_app.
Qed.

(** X17. Only the first sample of the vector counts: two backends whose answers
    differ after the first sample give the same run of both entry points. *)
Theorem later_samples_are_ignored
    (h : PrometheusMetricsClient) (customMetricName namespace selector : string)
    (s : Sample) (rest rest' : list Sample) :
  GetCPUUtilization (answering h (ValVector (s :: rest), None)) namespace selector =
    GetCPUUtilization (answering h (ValVector (s :: rest'), None)) namespace selector
  ∧ GetCustomMetric (answering h (ValVector (s :: rest), None))
      customMetricName namespace selector =
    GetCustomMetric (answering h (ValVector (s :: rest'), None))
      customMetricName namespace selector.
Proof.
  set (h1 := answering h (ValVector (s :: rest), None)).
  set (h2 := answering h (ValVector (s :: rest'), None)).
  assert (client_List h1 namespace selector = client_List h namespace selector) as E1 by done.
  assert (client_List h2 namespace selector = client_List h namespace selector) as E2 by done.
  destruct (client_List h namespace selector) as [pods [err|]] eqn:Hl.
  { split.
    - rewrite (GetCPUUtilization_list_error h1 namespace selector pods err E1).
      by rewrite (GetCPUUtilization_list_error h2 namespace selector pods err E2).
    - rewrite (GetCustomMetric_list_error h1 namespace selector customMetricName pods err E1).
      by rewrite (GetCustomMetric_list_error h2 namespace selector customMetricName
                    pods err E2). }
  split.
  - destruct (decide (allRequested pods ∧ requestSum pods ≠ 0%Z)) as [[Hall Hsum]|Hno].
    + rewrite (GetCPUUtilization_query h1 namespace selector pods E1 Hall Hsum).
      by rewrite (GetCPUUtilization_query h2 namespace selector pods E2 Hall Hsum).
    + assert (¬ allRequested pods ∨ requestSum pods = 0%Z) as Hreq.
      { destruct (decide (allRequested pods)); [|by left].
        right. destruct (decide (requestSum pods = 0%Z)); [done|]. tauto. }
      destruct pods as [|pod l].
      { rewrite (GetCPUUtilization_no_request h1 namespace selector [] E1) by auto.
        by rewrite (GetCPUUtilization_no_request h2 namespace selector [] E2) by auto. }
      destruct (runningPods (pod :: l)) as [|r rs] eqn:Hrun.
      * rewrite (GetCPUUtilization_no_running h1 namespace selector (pod :: l) E1 Hrun)
          by done.
        by rewrite (GetCPUUtilization_no_running h2 namespace selector (pod :: l) E2 Hrun)
          by done.
      * rewrite (GetCPUUtilization_no_request h1 namespace selector (pod :: l) E1);
          [| right; by rewrite Hrun | done].
        rewrite (GetCPUUtilization_no_request h2 namespace selector (pod :: l) E2);
          [done | right; by rewrite Hrun | done].
  - destruct pods as [|pod l].
    { rewrite (GetCustomMetric_query h1 namespace selector customMetricName [] E1) by auto.
      by rewrite (GetCustomMetric_query h2 namespace selector customMetricName [] E2)
        by auto. }
    destruct (notPendingPods (pod :: l)) as [|r rs] eqn:Hnp.
    + rewrite (GetCustomMetric_all_pending h1 namespace selector customMetricName
                 (pod :: l) E1 Hnp) by done.
      by rewrite (GetCustomMetric_all_pending h2 namespace selector customMetricName
                    (pod :: l) E2 Hnp) by done.
    + rewrite (GetCustomMetric_query h1 namespace selector customMetricName (pod :: l) E1)
        by (right; by rewrite Hnp).
      by rewrite (GetCustomMetric_query h2 namespace selector customMetricName (pod :: l) E2)
        by (right; by rewrite Hnp).
Qed.

(** ** The script that builds the image: properties *)

Section BuildImageRuns.

Import BuildImage.

Variable w : World.

Lemma Sh_ret_bind {A B} (a : A) (f : A → Sh B) : (mret a ≫= f) = f a.
Proof. unfold mbind, Sh_bind. simpl. by destruct (f a). Qed.

Lemma runs_nil : mret () = runs w [].
Proof. reflexivity. Qed.

Lemma runs_echo m : echo m = runs w [Echo m].
Proof. reflexivity. Qed.

Lemma runs_run c : run w c = runs w [Run c].
Proof.
  unfold run, runs. simpl. by destruct (status w c) eqn:Hc.
Qed.

Lemma runs_seq l1 l2 : (runs w l1;; runs w l2) = runs w (l1 ++ l2).
Proof.
  unfold runs, mbind, Sh_bind. simpl.
  induction l1 as [|[m|c] l1 IH]; simpl.
  - by destruct (failure w l2 =? 0).
  - destruct (failure w l1 =? 0) eqn:Hf; simpl in *.
    + injection IH as IH1 IH2. by rewrite IH1, IH2.
    + injection IH as IH1 IH2. by rewrite <- IH1, <- IH2.
  - destruct (status w c =? 0) eqn:Hc.
    + destruct (failure w l1 =? 0) eqn:Hf; simpl in *.
      * injection IH as IH1 IH2. by rewrite IH1, IH2.
      * injection IH as IH1 IH2. by rewrite <- IH1, <- IH2.
    + simpl. by rewrite Hc.
Qed.

(** A build runs the statements of its plan under [errexit]. *)
Lemma script_build IMAGE_TAG :
  tagOf w = Some IMAGE_TAG → script w = runs w (plan w IMAGE_TAG).
Proof.
  intros Htag.
  assert (imageTag w = mret IMAGE_TAG) as Himage.
  { unfold tagOf, imageTag in *.
    destruct (args w) as [|a1 [|a2 l]]; simplify_eq/=; try done.
    destruct (isHelp a1); by simplify_eq/=. }
  assert (setupDocker w =
            runs w (if String.eqb (uname w) "Darwin" then
                      if negb (String.eqb (which_docker_machine w) "")
                      then [Run EvalDockerMachine]
                      else if negb (String.eqb (which_boot2docker w) "")
                           then [Run EvalBoot2docker] else []
                    else [])) as Hsetup.
  { unfold setupDocker.
    destruct (String.eqb (uname w) "Darwin"); [|reflexivity].
    destruct (negb (String.eqb (which_docker_machine w) "")); [by rewrite runs_run|].
    destruct (negb (String.eqb (which_boot2docker w) "")); [by rewrite runs_run|].
    reflexivity. }
  unfold script. rewrite Himage.
  rewrite Sh_ret_bind, Hsetup.
  assert ((if String.eqb (pushToRegistry w) "Y"
           then echo StartPushing;; run w (DockerPush IMAGE_TAG) else mret ())
          = runs w (if String.eqb (pushToRegistry w) "Y"
                    then [Echo StartPushing; Run (DockerPush IMAGE_TAG)] else [])) as ->.
  { destruct (String.eqb (pushToRegistry w) "Y"); [|reflexivity].
    by rewrite runs_echo, runs_run, runs_seq. }
  assert (match args w with
          | [a1] => if isRelease a1 then echo ReleaseReminder else mret ()
          | _ => mret ()
          end
          = runs w match args w with
                   | [a1] => if isRelease a1 then [Echo ReleaseReminder] else []
                   | _ => []
                   end) as ->.
  { destruct (args w) as [|a1 [|a2 l]]; [reflexivity| |reflexivity].
    destruct (isRelease a1); reflexivity. }
  rewrite !runs_echo, !runs_run, !runs_seq. done.
Qed.

Lemma failure_zero_iff l : failure w l = 0 ↔ succeed w l.
Proof.
  unfold succeed. induction l as [|[m|c] l IH]; simpl.
  - split; [constructor | done].
  - rewrite Forall_cons. tauto.
  - rewrite Forall_cons. destruct (status w c) as [|n] eqn:Hc; simpl.
    + rewrite IH. tauto.
    + split; [lia | intros [? _]; lia].
Qed.

Lemma reached_app l1 l2 :
  reached w (l1 ++ l2) =
    reached w l1 ++ (if failure w l1 =? 0 then reached w l2 else []).
Proof.
  induction l1 as [|[m|c] l1 IH]; simpl.
  - done.
  - by rewrite IH.
  - destruct (status w c =? 0) eqn:Hc; [by rewrite IH|].
    rewrite Hc. by rewrite app_nil_r.
Qed.

Lemma failure_app l1 l2 :
  failure w (l1 ++ l2) = if failure w l1 =? 0 then failure w l2 else failure w l1.
Proof.
  induction l1 as [|[m|c] l1 IH]; simpl; [done | done |].
  destruct (status w c =? 0) eqn:Hc; [done|]. by rewrite Hc.
Qed.

Lemma reached_succeed l : succeed w l → reached w l = l.
Proof.
  unfold succeed. induction 1 as [|[m|c] l He Hl IH]; simpl; [done | by rewrite IH |].
  rewrite He. simpl. by rewrite IH.
Qed.

Lemma reached_subseteq l e : e ∈ reached w l → e ∈ l.
Proof.
  induction l as [|[m|c] l IH]; simpl; [done | |].
  - rewrite !elem_of_cons. intros [-> | ?]; auto.
  - rewrite !elem_of_cons. destruct (status w c =? 0).
    + intros [-> | ?]; auto.
    + intros [-> | Hin]; [auto | by apply not_elem_of_nil in Hin].
Qed.

Lemma elem_of_reached_app l1 l2 e :
  e ∈ reached w (l1 ++ l2) ↔
  e ∈ reached w l1 ∨ (failure w l1 = 0 ∧ e ∈ reached w l2).
Proof.
  rewrite reached_app, elem_of_app.
  destruct (failure w l1) as [|n]; simpl.
  - tauto.
  - split; [intros [?|Hin]; [auto | by apply not_elem_of_nil in Hin]|].
    intros [?|[? _]]; [auto | lia].
Qed.

(** A command that is reached and fails is the last statement reached, and
    its status is that of the list. *)
Lemma reached_failed l c :
  Run c ∈ reached w l → status w c ≠ 0 →
  ∃ before, reached w l = before ++ [Run c] ∧ succeed w before
            ∧ failure w l = status w c.
Proof.
  induction l as [|[m|c'] l IH]; simpl.
  - intros Hin. by apply not_elem_of_nil in Hin.
  - rewrite elem_of_cons. intros [?|Hin] Hc; [done|].
    destruct (IH Hin Hc) as (before & Hr & Hs & Hf).
    exists (Echo m :: before). rewrite Hr. repeat split; try done.
    by apply Forall_cons.
  - rewrite elem_of_cons. destruct (status w c' =? 0) eqn:Hc'.
    + apply Nat.eqb_eq in Hc'. intros [Heq|Hin] Hc; [congruence|].
      destruct (IH Hin Hc) as (before & Hr & Hs & Hf).
      exists (Run c' :: before). rewrite Hr. repeat split; try done.
      by apply Forall_cons.
    + intros [Heq|Hin] Hc; [|by apply not_elem_of_nil in Hin].
      injection Heq as ->. exists []. split; [done|]. split; [constructor | done].
Qed.

(** The statements of a run: the usage on a request for help, the plan of
    the build otherwise. *)
Lemma script_statements :
  ∃ l, events (script w) = reached w l
       ∧ exitStatus (script w) = failure w l
       ∧ match tagOf w with
         | Some IMAGE_TAG => l = plan w IMAGE_TAG
         | None => l = [Run AssignRoot; Echo (Usage (pushToRegistry w))]
         end.
Proof.
  destruct (tagOf w) as [t|] eqn:Htag.
  - exists (plan w t). rewrite (script_build t Htag). unfold runs, events, exitStatus.
    split; [done|]. split; [|done].
    generalize (failure w (plan w t)). intros [|n]; reflexivity.
  - unfold tagOf in Htag.
    destruct (args w) as [|a1 [|a2 l]] eqn:Hargs; simplify_eq/=.
    destruct (isHelp a1) eqn:Hhelp; simplify_eq/=.
    eexists. split; [|split; [|reflexivity]].
    + unfold script, imageTag, run, events. rewrite Hargs, Hhelp. simpl.
      by destruct (status w AssignRoot =? 0).
    + unfold script, imageTag, run, exitStatus. rewrite Hargs, Hhelp. simpl.
      by destruct (status w AssignRoot).
Qed.

Lemma failure_reached l :
  (∀ c, Run c ∈ reached w l → status w c = 0) → failure w l = 0.
Proof.
  induction l as [|[m|c] l IH]; simpl; [done | |].
  - intros H. apply IH. intros c Hin. apply H. by right.
  - intros H. rewrite (H c) by left. simpl. apply IH.
    intros c' Hin. apply H. rewrite (H c) by left. by right.
Qed.

Lemma succeed_status l c : succeed w l → Run c ∈ l → status w c = 0.
Proof.
  unfold succeed. rewrite Forall_forall. intros Hl Hin. apply (Hl _ Hin).
Qed.

(** A statement that is reached and is none of the first part of a list:
    the first part has run to its end. *)
Lemma reached_later l1 l2 e :
  e ∈ reached w (l1 ++ l2) → e ∉ l1 →
  succeed w l1 ∧ reached w (l1 ++ l2) = l1 ++ reached w l2 ∧ e ∈ reached w l2.
Proof.
  intros Hin Hnot. apply elem_of_reached_app in Hin as [Hin | [Hf Hin]].
  - by apply reached_subseteq in Hin.
  - rewrite reached_app, Hf. simpl. apply failure_zero_iff in Hf.
    by rewrite (reached_succeed _ Hf).
Qed.

(** The three parts of a plan: the build, the push, and what follows the
    echo of the success. *)
Lemma plan_parts IMAGE_TAG :
  ∃ build push after,
    plan w IMAGE_TAG = build ++ push ++ Echo (Success IMAGE_TAG) :: after
    ∧ (∀ e, e ∈ build →
            e ∈ [Run AssignRoot; Run EvalDockerMachine; Run EvalBoot2docker;
                 Echo StartBuilding; Run (CdRoot (dirname w +:+ "/.."));
                 Run (DockerRun (pwd w)); Run (DockerBuild IMAGE_TAG); Run CdBack])
    ∧ Run AssignRoot ∈ build
    ∧ Run (DockerRun (pwd w)) ∈ build
    ∧ Run (DockerBuild IMAGE_TAG) ∈ build
    ∧ Run CdBack ∈ build
    ∧ push = (if String.eqb (pushToRegistry w) "Y"
              then [Echo StartPushing; Run (DockerPush IMAGE_TAG)] else [])
    ∧ after = match args w with
              | [a1] => if isRelease a1 then [Echo ReleaseReminder] else []
              | _ => []
              end.
Proof.
  unfold plan.
  set (setup := if String.eqb (uname w) "Darwin" then _ else _).
  exists ([Run AssignRoot] ++ setup
          ++ [Echo StartBuilding; Run (CdRoot (dirname w +:+ "/.."));
              Run (DockerRun (pwd w)); Run (DockerBuild IMAGE_TAG); Run CdBack]).
  exists (if String.eqb (pushToRegistry w) "Y"
          then [Echo StartPushing; Run (DockerPush IMAGE_TAG)] else []).
  exists (match args w with
          | [a1] => if isRelease a1 then [Echo ReleaseReminder] else []
          | _ => []
          end).
  split; [by rewrite <- !app_assoc|].
  split; [|split; [|split; [|split; [|split; [|split; reflexivity]]]]].
  - intros e. rewrite !elem_of_app. unfold setup.
    intros [Hin | [Hin | Hin]].
    + apply list_elem_of_singleton in Hin as ->. repeat constructor.
    + destruct (String.eqb (uname w) "Darwin");
        [|by apply elem_of_nil in Hin].
      destruct (negb (String.eqb (which_docker_machine w) ""));
        [apply list_elem_of_singleton in Hin as ->; repeat constructor|].
      destruct (negb (String.eqb (which_boot2docker w) ""));
        [apply list_elem_of_singleton in Hin as ->; repeat constructor|].
      by apply elem_of_nil in Hin.
    + by do 3 apply list_elem_of_further.
  - apply elem_of_app. left. constructor.
  - rewrite !elem_of_app. do 2 right. repeat constructor.
  - rewrite !elem_of_app. do 2 right. repeat constructor.
  - rewrite !elem_of_app. do 2 right. repeat constructor.
Qed.

(** The two ways of the script: a request for help, or a build. *)
Lemma script_cases :
  (∃ a, args w = [a] ∧ isHelp a = true
        ∧ events (script w) = reached w [Run AssignRoot; Echo (Usage (pushToRegistry w))]
        ∧ exitStatus (script w) = status w AssignRoot)
  ∨ (∃ t, t = match args w with [a1] => a1 | _ => "latest" end
          ∧ isHelp t = false
          ∧ (∀ a, args w = [a] → isHelp a = false)
          ∧ events (script w) = reached w (plan w t)
          ∧ exitStatus (script w) = failure w (plan w t)).
Proof.
  destruct script_statements as (l & Hev & Hst & Hl).
  unfold tagOf in Hl.
  destruct (args w) as [|a1 [|a2 l']] eqn:Hargs.
  - right. exists "latest". by subst l.
  - destruct (isHelp a1) eqn:Hhelp.
    + left. exists a1. subst l. repeat split; try done.
      rewrite Hst. simpl. by destruct (status w AssignRoot).
    + right. exists a1. subst l. repeat split; try done. by intros a [= <-].
  - right. exists "latest". by subst l.
Qed.

Lemma pushToRegistry_Y :
  String.eqb (pushToRegistry w) "Y" = true ↔ PUSH_TO_REGISTRY w = Some "Y".
Proof.
  unfold pushToRegistry. rewrite String.eqb_eq.
  destruct (PUSH_TO_REGISTRY w) as [v|]; [|done].
  destruct (String.eqb v "") eqn:Hv.
  - apply String.eqb_eq in Hv as ->. done.
  - split; [by intros -> | by intros [= ->]].
Qed.


End BuildImageRuns.

Import BuildImage.

(** *** The pattern of a release tag *)

Section ReleasePattern.

Lemma string_app_empty_r (s : string) : s +:+ "" = s.
Proof. induction s as [|c s IH]; [done|]. by rewrite string_app_cons, IH. Qed.

Lemma skipDigits_app A r : allDigits A = true → skipDigits (A +:+ r) = skipDigits r.
Proof.
  induction A as [|c A IH]; [done|]. simpl. intros [Hc HA]%andb_prop.
  rewrite Hc. auto.
Qed.

Lemma skipDigits_split s : ∃ A, allDigits A = true ∧ s = A +:+ skipDigits s.
Proof.
  induction s as [|c r (A & HA & Hr)]; [by exists ""|]. simpl.
  destruct (isDigit c) eqn:Hc; [|by exists ""].
  exists (String c A). simpl. rewrite Hc, HA. split; [done|].
  rewrite ?string_app_cons. by f_equal.
Qed.

Lemma skipDigits_head s c r : skipDigits s = String c r → isDigit c = false.
Proof.
  induction s as [|c' s IH]; simpl; [done|].
  destruct (isDigit c') eqn:Hc'; [done|]. by intros [= -> ->].
Qed.

Lemma digits_split s r :
  digits s = Some r →
  ∃ A, number A ∧ s = A +:+ r ∧ ∀ c r', r = String c r' → isDigit c = false.
Proof.
  destruct s as [|c s]; simpl; [done|].
  destruct (isDigit c) eqn:Hc; [|done]. intros [= <-].
  destruct (skipDigits_split s) as (A & HA & Hs).
  exists (String c A). repeat split.
  - done.
  - simpl. by rewrite Hc, HA.
  - rewrite ?string_app_cons. by f_equal.
  - intros c' r'. apply skipDigits_head.
Qed.

Lemma digits_app A r :
  number A → (∀ c r', r = String c r' → isDigit c = false) →
  digits (A +:+ r) = Some r.
Proof.
  intros [Hne HA] Hr. destruct A as [|c A]; [done|].
  simpl in HA. apply andb_prop in HA as [Hc HA].
  rewrite ?string_app_cons. simpl. rewrite Hc, (skipDigits_app _ _ HA).
  destruct r as [|c' r']; [done|]. simpl. by rewrite (Hr c' r' eq_refl).
Qed.

Lemma char_Some c s r : char c s = Some r ↔ s = String c r.
Proof.
  destruct s as [|c' s]; simpl; [done|].
  destruct (Ascii.eqb c c') eqn:Hc.
  - apply Ascii.eqb_eq in Hc as ->. split; congruence.
  - apply Ascii.eqb_neq in Hc. split; [done | congruence].
Qed.

Lemma isHelp_not_release a : isHelp a = true → isRelease a = false.
Proof.
  unfold isHelp. rewrite !orb_true_iff, !String.eqb_eq.
  by intros [[-> | ->] | ->].
Qed.

End ReleasePattern.

(** X18. The pattern of the release reminder accepts exactly the tags
    [vA.B.C] in which [A], [B] and [C] are non-empty strings of decimal
    digits. *)
Theorem isRelease_iff (a : string) :
  isRelease a = true ↔
  ∃ A B C, number A ∧ number B ∧ number C
           ∧ a = "v" +:+ A +:+ "." +:+ B +:+ "." +:+ C.
Proof.
  unfold isRelease, next. split.
  - destruct (char "v" a) as [s1|] eqn:H1; [|done].
    destruct (digits s1) as [s2|] eqn:H2; [|done].
    destruct (char "." s2) as [s3|] eqn:H3; [|done].
    destruct (digits s3) as [s4|] eqn:H4; [|done].
    destruct (char "." s4) as [s5|] eqn:H5; [|done].
    destruct (digits s5) as [[|c s6]|] eqn:H6; [|done|done]. intros _.
    apply char_Some in H1, H3, H5.
    apply digits_split in H2 as (A & HA & -> & _).
    apply digits_split in H4 as (B & HB & -> & _).
    apply digits_split in H6 as (C & HC & -> & _).
    exists A, B, C. rewrite string_app_empty_r in H5. by subst.
  - intros (A & B & C & HA & HB & HC & ->).
    change ("v" +:+ A +:+ "." +:+ B +:+ "." +:+ C)
      with (String "v" (A +:+ String "." (B +:+ String "." C))).
    simpl. rewrite digits_app; [|done|by intros c r' [= <- _]].
    simpl. rewrite digits_app; [|done|by intros c r' [= <- _]].
    simpl. rewrite <- (string_app_empty_r C) at 1.
    by rewrite digits_app.
Qed.

(** *** The runs of the script *)

(** X19. Under [errexit] the script ends with the status 0 exactly when
    every command that it ran succeeded. *)
Theorem exit_status_zero_iff (w : World) :
  exitStatus (script w) = 0 ↔ ∀ c, Run c ∈ events (script w) → status w c = 0.
Proof.
  destruct (script_statements w) as (l & -> & -> & _). split.
  - intros Hf c Hin. apply failure_zero_iff in Hf.
    apply reached_subseteq in Hin. by apply (succeed_status w l).
  - apply failure_reached.
Qed.

(** X20. A command that fails ends the script: it is the last statement
    that was reached, every command before it succeeded, and its status is
    the exit status of the script. *)
Theorem failed_command_ends_script (w : World) (c : command) :
  Run c ∈ events (script w) → status w c ≠ 0 →
  exitStatus (script w) = status w c
  ∧ ∃ before, events (script w) = before ++ [Run c]
              ∧ ∀ c', Run c' ∈ before → status w c' = 0.
Proof.
  destruct (script_statements w) as (l & -> & -> & _). intros Hin Hc.
  destruct (reached_failed w l c Hin Hc) as (before & Hr & Hs & Hf).
  split; [done|]. exists before. split; [done|].
  intros c'. by apply succeed_status.
Qed.

Lemma failed_command_ends_script_witness :
  Run (DockerBuild "v1.0.1") ∈ events (script (buildFails ["v1.0.1"] (Some "Y") 2))
  ∧ exitStatus (script (buildFails ["v1.0.1"] (Some "Y") 2)) = 2
  ∧ ∃ before, events (script (buildFails ["v1.0.1"] (Some "Y") 2))
                = before ++ [Run (DockerBuild "v1.0.1")]
              ∧ ∀ c', Run c' ∈ before → status (buildFails ["v1.0.1"] (Some "Y") 2) c' = 0.
Proof.
  assert (Run (DockerBuild "v1.0.1")
            ∈ events (script (buildFails ["v1.0.1"] (Some "Y") 2))) as Hin.
  { vm_compute. repeat constructor. }
  split; [exact Hin|].
  apply (failed_command_ends_script (buildFails ["v1.0.1"] (Some "Y") 2)
           (DockerBuild "v1.0.1") Hin).
  vm_compute. lia.
Defined.



(** X22. An image is pushed only when [PUSH_TO_REGISTRY] is [Y], and only
    after the binary and the image with the same tag were built and the
    script went back to the directory it came from. *)
Theorem push_only_when_asked (w : World) (t : string) :
  Run (DockerPush t) ∈ events (script w) →
  PUSH_TO_REGISTRY w = Some "Y"
  ∧ status w (DockerRun (pwd w)) = 0
  ∧ status w (DockerBuild t) = 0
  ∧ status w CdBack = 0
  ∧ ∃ before after,
      events (script w) = before ++ Run (DockerPush t) :: after
      ∧ Run (DockerBuild t) ∈ before.
Proof.
  intros Hin.
  destruct (script_cases w)
    as [(a & Ha & Hh & Hev & Hst) | (t0 & Ht0 & Hh & _ & Hev & Hst)].
  { rewrite Hev in Hin. apply reached_subseteq in Hin. members Hin. }
  destruct (plan_parts w t0)
    as (build & push & after & Hplan & Hbuild & _ & HR & HB & HC & Hpush & Hafter).
  rewrite Hev, Hplan in Hin.
  apply reached_later in Hin as (Hsb & Hreached & Hin);
    [|intros Hb; apply Hbuild in Hb; members Hb].
  assert (∀ e, e ∈ after → e = Echo ReleaseReminder) as Hafter'.
  { intros e He. rewrite Hafter in He.
    destruct (args w) as [|a1 [|a2 l]]; [members He| |members He].
    destruct (isRelease a1); members He. done. }
  rewrite Hev, Hplan, Hreached. rewrite Hpush in Hin |- *.
  destruct (String.eqb (pushToRegistry w) "Y") eqn:HY.
  - assert (t = t0) as ->.
    { apply reached_subseteq in Hin. simpl in Hin.
      do 3 (apply elem_of_cons in Hin as [Hin|Hin]; [by simplify_eq|]).
      apply Hafter' in Hin. discriminate Hin. }
    repeat split.
    + by apply pushToRegistry_Y.
    + by apply (succeed_status w build).
    + by apply (succeed_status w build).
    + by apply (succeed_status w build).
    + simpl. exists (build ++ [Echo StartPushing]). eexists.
      split; [by rewrite <- app_assoc|]. apply elem_of_app. by left.
  - simpl in Hin. apply elem_of_cons in Hin as [Hin|Hin]; [discriminate Hin|].
    apply reached_subseteq, Hafter' in Hin. discriminate Hin.
Qed.

Lemma push_only_when_asked_witness :
  Run (DockerPush "latest") ∈ events (script (fine [] (Some "Y")))
  ∧ PUSH_TO_REGISTRY (fine [] (Some "Y")) = Some "Y"
  ∧ status (fine [] (Some "Y")) (DockerRun (pwd (fine [] (Some "Y")))) = 0
  ∧ status (fine [] (Some "Y")) (DockerBuild "latest") = 0
  ∧ status (fine [] (Some "Y")) CdBack = 0
  ∧ ∃ before after,
      events (script (fine [] (Some "Y"))) = before ++ Run (DockerPush "latest") :: after
      ∧ Run (DockerBuild "latest") ∈ before.
Proof.
  assert (Run (DockerPush "latest") ∈ events (script (fine [] (Some "Y")))) as Hin.
  { vm_compute. repeat constructor. }
  split; [exact Hin|].
  exact (push_only_when_asked (fine [] (Some "Y")) "latest" Hin).
Defined.



(** X24. The reminder of the release is echoed exactly when the script has
    a single argument that matches the pattern of a release tag and the
    build with that tag has got as far as its success. *)
Theorem release_reminder_iff (w : World) :
  Echo ReleaseReminder ∈ events (script w) ↔
  ∃ a, args w = [a] ∧ isRelease a = true ∧ Echo (Success a) ∈ events (script w).
Proof.
  destruct (script_cases w)
    as [(a & Ha & Hh & Hev & Hst) | (t0 & Ht0 & Hh & _ & Hev & Hst)].
  { rewrite Hev. split.
    - intros Hin. apply reached_subseteq in Hin. members Hin.
    - intros (a' & _ & _ & Hin). apply reached_subseteq in Hin. members Hin. }
  destruct (plan_parts w t0)
    as (build & push & after & Hplan & Hbuild & _ & HR & HB & HC & Hpush & Hafter).
  assert (∀ e, e ∈ push → e = Echo StartPushing ∨ e = Run (DockerPush t0)) as Hpush'.
  { intros e He. rewrite Hpush in He.
    destruct (String.eqb (pushToRegistry w) "Y"); members He; auto. }
  assert (∀ e, e ∈ build ++ push → ∀ m, e = Echo m → m = StartBuilding ∨ m = StartPushing)
    as Hfirst.
  { intros e [He|He]%elem_of_app m ->.
    - apply Hbuild in He. members He. left. congruence.
    - apply Hpush' in He as [He|He]; [right; congruence | discriminate He]. }
  rewrite Hev, Hplan, app_assoc. split.
  - intros Hin.
    apply reached_later in Hin as (Hs & -> & Hin);
      [|intros He; by destruct (Hfirst _ He ReleaseReminder eq_refl)].
    simpl in Hin. apply elem_of_cons in Hin as [Hin|Hin]; [discriminate Hin|].
    apply reached_subseteq in Hin. rewrite Hafter in Hin.
    destruct (args w) as [|a1 [|a2 l]]; [members Hin| |members Hin].
    destruct (isRelease a1) eqn:Hrel; [|members Hin].
    exists a1. subst t0. repeat split; try done.
    apply elem_of_app. right. simpl. constructor.
  - intros (a & Ha & Hrel & Hin). rewrite Ha in Ht0, Hafter. subst t0.
    rewrite Hrel in Hafter.
    apply reached_later in Hin as (Hs & _ & _);
      [|intros He; by destruct (Hfirst _ He (Success a) eq_refl)].
    rewrite reached_app.
    apply failure_zero_iff in Hs. rewrite Hs, Hafter. simpl.
    apply elem_of_app. right. repeat constructor.
Qed.


